(** * A shallow embedding of the Bitstamp exchange client module

    The client is callback-based JavaScript.  We model:
    - JavaScript values as [jsval]; a number is kept as its canonical
      decimal text (what [Number.prototype.toString] prints, e.g. "0",
      "-0.5", "NaN").  Under this encoding [x === 0] is [text = "0"]
      (ToString(-0) is "0") and [x < 0] is "the text starts with '-'".
    - errors as [err_value]: a JS [Error] object built by [constructError],
      or a bare string passed to a callback;
    - the network as an [io] tree: [Net] is one HTTP request through the
      [request] library, whose answer the continuation receives;
    - JS runtime primitives ([parseFloat], [new Date]) and the [Currency]
      helper module as fields of a [runtime] record. *)

From Stdlib Require Import String Ascii List ZArith Bool Lia.
Import ListNotations.
Local Open Scope Z_scope.
Local Open Scope string_scope.
Set Warnings "-register-all".

(* ------------------------------------------------------------------ *)
(** ** JavaScript values *)

Inductive jsval : Type :=
| JUndefined
| JNull
| JBool (b : bool)
| JNum (text : string)
| JStr (s : string)
| JArr (elems : list jsval)
| JObj (fields : list (string * jsval)).

(** JavaScript truthiness. *)
Definition truthy (v : jsval) : bool :=
  match v with
  | JUndefined | JNull => false
  | JBool b => b
  | JNum t => negb (String.eqb t "0" || String.eqb t "NaN")
  | JStr s => negb (String.eqb s "")
  | JArr _ | JObj _ => true
  end.

(** Property read [v.k]; [None] is the TypeError thrown on [undefined] and
    [null]. Object keys are assumed distinct, as in parsed JSON. *)
Definition prop (k : string) (v : jsval) : option jsval :=
  match v with
  | JUndefined | JNull => None
  | JObj fs =>
      Some (match find (fun kv => String.eqb (fst kv) k) fs with
            | Some kv => snd kv
            | None => JUndefined
            end)
  | _ => Some JUndefined
  end.

(** [String(v)]. *)
Fixpoint js_to_string (v : jsval) : string :=
  match v with
  | JUndefined => "undefined"
  | JNull => "null"
  | JBool true => "true"
  | JBool false => "false"
  | JNum t => t
  | JStr s => s
  | JArr l =>
      String.concat ","
        (map (fun e => match e with
                       | JUndefined | JNull => ""
                       | _ => js_to_string e
                       end) l)
  | JObj _ => "[object Object]"
  end.

(** Loose equality [v == s] against a non-numeric string literal [s]. *)
Definition loose_eq_str (v : jsval) (s : string) : bool :=
  match v with
  | JStr _ | JArr _ | JObj _ => String.eqb (js_to_string v) s
  | _ => false
  end.

Definition is_number (v : jsval) : bool :=
  match v with JNum _ => true | _ => false end.

(** [x === 0] and [x < 0] for a number, on its canonical text. *)
Definition num_is_zero (t : string) : bool := String.eqb t "0".
Definition num_lt_zero (t : string) : bool :=
  match t with String "-" _ => true | _ => false end.

(** [x * -1] on canonical text. *)
Definition num_neg (t : string) : string :=
  match t with
  | String "-" r => r
  | _ => if String.eqb t "0" || String.eqb t "NaN" then t else String "-" t
  end.

(** ASCII [toUpperCase] / [toLowerCase]. *)
Definition ascii_upper (c : ascii) : ascii :=
  let n := nat_of_ascii c in
  if andb (Nat.leb 97 n) (Nat.leb n 122) then ascii_of_nat (n - 32) else c.
Definition ascii_lower (c : ascii) : ascii :=
  let n := nat_of_ascii c in
  if andb (Nat.leb 65 n) (Nat.leb n 90) then ascii_of_nat (n + 32) else c.
Fixpoint toUpperCase (s : string) : string :=
  match s with EmptyString => EmptyString | String c r => String (ascii_upper c) (toUpperCase r) end.
Fixpoint toLowerCase (s : string) : string :=
  match s with EmptyString => EmptyString | String c r => String (ascii_lower c) (toLowerCase r) end.

(* ------------------------------------------------------------------ *)
(** ** Errors (lib/error_codes.js and constructError) *)

Inductive error_code : Type :=
| EXCHANGE_SERVER_ERROR
| MODULE_ERROR
| INSUFFICIENT_FUNDS.

Inductive err_value : Type :=
| ErrorObj (message : string) (code : option error_code) (cause : option err_cause)
| ErrorString (s : string)
with err_cause : Type :=
| CauseError (e : err_value)
| CauseValue (v : jsval).

Definition constructError (message : string) (errorCode : error_code)
    (errorCause : option err_cause) : err_value :=
  ErrorObj message (Some errorCode) errorCause.

Definition err_code (e : err_value) : option error_code :=
  match e with ErrorObj _ c _ => c | ErrorString _ => None end.
Definition err_message (e : err_value) : option string :=
  match e with ErrorObj m _ _ => Some m | ErrorString _ => None end.

(* ------------------------------------------------------------------ *)
(** ** The two insufficient-funds regular expressions *)

Module Regex.

(** The fragment of JS regular expressions the two patterns use. *)
Inductive re : Type :=
| Eps
| Chr (p : ascii -> bool)
| Plus (p : ascii -> bool)
| Opt (r : re)
| Cat (r1 r2 : re).

Fixpoint plus_match (p : ascii -> bool) (s : list ascii)
    (k : list ascii -> bool) : bool :=
  match s with
  | [] => false
  | c :: s' => p c && (k s' || plus_match p s' k)
  end.

(** Backtracking matcher in continuation style. *)
Fixpoint matches (r : re) (s : list ascii) (k : list ascii -> bool) : bool :=
  match r with
  | Eps => k s
  | Chr p => match s with [] => false | c :: s' => p c && k s' end
  | Plus p => plus_match p s k
  | Opt r1 => matches r1 s k || k s
  | Cat r1 r2 => matches r1 s (fun s' => matches r2 s' k)
  end.

(** [/^...$/.test(s)], no flags. *)
Definition test (r : re) (s : string) : bool :=
  matches r (list_ascii_of_string s) (fun rest => match rest with [] => true | _ => false end).

Definition is_digit (c : ascii) : bool :=
  let n := nat_of_ascii c in andb (Nat.leb 48 n) (Nat.leb n 57).
Definition is_AZ (c : ascii) : bool :=
  let n := nat_of_ascii c in andb (Nat.leb 65 n) (Nat.leb n 90).
(** [.] : any character but a line terminator. *)
Definition any_char (c : ascii) : bool :=
  negb (Ascii.eqb c (ascii_of_nat 10) || Ascii.eqb c (ascii_of_nat 13)).

Fixpoint lit (s : string) : re :=
  match s with
  | EmptyString => Eps
  | String c r => Cat (Chr (Ascii.eqb c)) (lit r)
  end.

Fixpoint seq (rs : list re) : re :=
  match rs with [] => Eps | r :: rs' => Cat r (seq rs') end.

(** [\d+(\.\d+)?] *)
Definition amount : re := Cat (Plus is_digit) (Opt (Cat (lit ".") (Plus is_digit))).
(** [[A-Z]{3}] *)
Definition ccy : re := Cat (Chr is_AZ) (Cat (Chr is_AZ) (Chr is_AZ)).

(** [/^You need \d+(\.\d+)? [A-Z]{3} to open that order. You have only
    \d+(\.\d+)? [A-Z]{3} available. Check your account balance for details.$/] *)
Definition REGEX_PATTERN_BUY_ERROR_INSUFFICIENT_FUNDS : re :=
  seq [lit "You need "; amount; lit " "; ccy; lit " to open that order";
       Chr any_char; lit " You have only "; amount; lit " "; ccy;
       lit " available"; Chr any_char;
       lit " Check your account balance for details"; Chr any_char].

(** [/^You have only \d+(\.\d+)? [A-Z]{3} available. Check your account
    balance for details.$/] *)
Definition REGEX_PATTERN_SELL_ERROR_INSUFFICIENT_FUNDS : re :=
  seq [lit "You have only "; amount; lit " "; ccy;
       lit " available"; Chr any_char;
       lit " Check your account balance for details"; Chr any_char].

End Regex.

(* ------------------------------------------------------------------ *)
(** ** Transport and response interpretation ([Bitstamp.prototype._request]) *)

(** The body handed to the [request] callback, as [JSON.parse] sees it. *)
Inductive body : Type :=
| NoBody                          (* absent or the empty string: [!body] *)
| Unparsable (exc : err_value)    (* [JSON.parse(body)] throws [exc] *)
| Parsed (data : jsval).          (* [JSON.parse(body)] returns [data] *)

(** The arguments [(err, res, body)] of the [request] callback. *)
Record transport_result : Type := {
  tr_err : option err_value;   (* [err] *)
  tr_res_error : jsval;        (* [res.error] *)
  tr_body : body
}.

(** The values [_.find] iterates over: array elements, object values,
    string characters. *)
Definition collection_elems (v : jsval) : list jsval :=
  match v with
  | JArr l => l
  | JObj fs => map snd fs
  | JStr s => map (fun c => JStr (String c EmptyString)) (list_ascii_of_string s)
  | _ => []
  end.

(** [_.find(coll, msg => re.test(msg))]; [JUndefined] when nothing matches. *)
Definition find_matching (r : Regex.re) (coll : jsval) : jsval :=
  match find (fun m => Regex.test r (js_to_string m)) (collection_elems coll) with
  | Some m => m
  | None => JUndefined
  end.

(** [x || y] *)
Definition js_or (x y : jsval) : jsval := if truthy x then x else y.

(** The [data.error] branch of [requestFunction]. *)
Definition body_error (derr : jsval) : err_value :=
  let error := constructError
      "There is an error in the body of the response from the exchange service..."
      EXCHANGE_SERVER_ERROR (Some (CauseValue derr)) in
  match prop "__all__" derr with
  | Some allErrors =>
      if truthy allErrors then
        let insufficientFundsErrorMessage :=
          js_or (find_matching Regex.REGEX_PATTERN_BUY_ERROR_INSUFFICIENT_FUNDS allErrors)
                (find_matching Regex.REGEX_PATTERN_SELL_ERROR_INSUFFICIENT_FUNDS allErrors) in
        if truthy insufficientFundsErrorMessage then
          constructError (js_to_string insufficientFundsErrorMessage) INSUFFICIENT_FUNDS None
        else error
      else error
  | None => error
  end.

(** [requestFunction(err, res, body)]: [None] is an uncaught TypeError
    (reading [data.error] of a parsed [null]); [Some (inl e)] is
    [callback(e)], [Some (inr data)] is [callback(null, data)].  The cause
    of the generic body error, [new Error(JSON.stringify(data.error))], is
    kept as the raw payload [data.error]. *)
Definition _request (t : transport_result) : option (err_value + jsval) :=
  if match tr_err t with Some _ => true | None => false end
     || match tr_body t with NoBody => true | _ => false end
  then Some (inl (constructError "There is an error in the response from the Bitstamp service..."
                   EXCHANGE_SERVER_ERROR (option_map CauseError (tr_err t))))
  else if truthy (tr_res_error t)
  then Some (inl (constructError "The exchange service responded with an error..."
                   EXCHANGE_SERVER_ERROR (Some (CauseValue (tr_res_error t)))))
  else match tr_body t with
       | NoBody => None
       | Unparsable e =>
           Some (inl (constructError "Could not understand response from exchange server."
                        MODULE_ERROR (Some (CauseError e))))
       | Parsed data =>
           match prop "error" data with
           | None => None
           | Some derr => if truthy derr then Some (inl (body_error derr)) else Some (inr data)
           end
       end.

(* ------------------------------------------------------------------ *)
(** ** Network effects and the client object *)

Inductive http_method : Type := GET | POST.

(** A callback chain: [Ret a] is [callback(null, a)], [Throw e] is
    [callback(e)], [Crash] an uncaught exception, [Net] one HTTP request,
    [Diverge] the iteration bound of the model reached while the loop
    would still run. *)
Inductive io (A : Type) : Type :=
| Ret (a : A)
| Throw (e : err_value)
| Crash
| Diverge
| Net (m : http_method) (action : string) (params : list (string * jsval))
      (k : transport_result -> io A).
Arguments Ret {A} a.
Arguments Throw {A} e.
Arguments Crash {A}.
Arguments Diverge {A}.
Arguments Net {A} m action params k.

(** Feed one answer to the first request of a chain. *)
Definition respond {A} (m : io A) (t : transport_result) : io A :=
  match m with Net _ _ _ k => k t | _ => m end.

(** Run a chain against an exchange that answers every request. *)
Fixpoint run {A} (net : http_method -> string -> list (string * jsval) -> transport_result)
    (m : io A) : io A :=
  match m with
  | Net meth a p k => run net (k (net meth a p))
  | _ => m
  end.

(** The settings kept by the constructor [Bitstamp(settings)]. *)
Record Bitstamp : Type := {
  key : jsval;
  secret : jsval;
  clientId : jsval
}.

Definition interpreted {A} (k : err_value + jsval -> io A) (t : transport_result) : io A :=
  match _request t with None => Crash | Some r => k r end.

(** [Bitstamp.prototype._get]. *)
Definition _get {A} (action : string) (k : err_value + jsval -> io A) : io A :=
  Net GET action [] (interpreted k).

(** [Bitstamp.prototype._post].  The request carries the caller's
    parameters; the signing fields [key], [signature] and [nonce] that
    [_post] adds (from the clock and HMAC-SHA256) are left implicit. *)
Definition _post {A} (self : Bitstamp) (action : string) (params : list (string * jsval))
    (k : err_value + jsval -> io A) : io A :=
  if negb (truthy (key self)) || negb (truthy (secret self)) || negb (truthy (clientId self))
  then k (inl (ErrorString "Must provide key, secret and client ID to make this API request."))
  else Net POST action params (interpreted k).

(* ------------------------------------------------------------------ *)
(** ** Runtime primitives and the [Currency] helper *)

(** Decimal text of an integer, as [String(n)] prints it. *)
Fixpoint digits_of_pos (fuel : nat) (n : N) (acc : string) : string :=
  match fuel with
  | O => acc
  | S f =>
      let d := String (ascii_of_N (48 + N.modulo n 10)) acc in
      if N.ltb n 10 then d else digits_of_pos f (N.div n 10) d
  end.
Definition Z_text (z : Z) : string :=
  match z with
  | Z0 => "0"
  | Zpos p => digits_of_pos (Pos.to_nat p) (Npos p) ""
  | Zneg p => String "-" (digits_of_pos (Pos.to_nat p) (Npos p) "")
  end.

Record runtime : Type := {
  (** [parseFloat(s)] (on [String(x)]), as canonical number text *)
  parseFloat : string -> string;
  (** [Number(s)], as canonical number text *)
  toNumber : string -> string;
  (** time value of [new Date(x)]; [None] for an Invalid Date *)
  new_Date : jsval -> option Z;
  (** [new Date(s + '+0').toISOString()]; [None] when it throws *)
  utcISOString : string -> option string;
  (** [Currency.toSmallestSubunit(amount, currency)] *)
  toSmallestSubunit : jsval -> string -> Z;
  (** [Currency.fromSmallestSubunit(amount, currency)] *)
  fromSmallestSubunit : jsval -> string -> jsval
}.

(** lib/constants.js *)
Definition TYPE_SELL_ORDER : string := "sell".
Definition TYPE_BUY_ORDER : string := "buy".
Definition TYPE_DEPOSIT : jsval := JNum "0".
Definition TYPE_WITHDRAWAL : jsval := JNum "1".
Definition TYPE_MARKET_TRADE : jsval := JNum "2".

(** [x === c] for a number constant [c]. *)
Definition strict_eq_num (x c : jsval) : bool :=
  match x, c with JNum a, JNum b => String.eqb a b | _, _ => false end.

(** Output records of the public operations. *)
Module Transaction.
Record t : Type := {
  externalId : string;
  timestamp : string;
  state : string;
  amount : Z;
  currency : string;
  type : string;
  raw : jsval
}.
End Transaction.

Module MarketTrade.
Record t : Type := {
  externalId : string;
  type : string;
  state : string;
  baseCurrency : string;
  baseAmount : Z;
  quoteCurrency : string;
  quoteAmount : Z;
  feeCurrency : string;
  feeAmount : Z;
  tradeTime : option Z;
  raw : jsval
}.
End MarketTrade.

Definition obind {A B} (o : option A) (f : A -> option B) : option B :=
  match o with Some a => f a | None => None end.

Fixpoint map_opt {A B} (f : A -> option B) (l : list A) : option (list B) :=
  match l with
  | [] => Some []
  | x :: r => obind (f x) (fun y => obind (map_opt f r) (fun ys => Some (y :: ys)))
  end.

Fixpoint filter_opt {A} (f : A -> option bool) (l : list A) : option (list A) :=
  match l with
  | [] => Some []
  | x :: r =>
      obind (f x) (fun b => obind (filter_opt f r) (fun ys => Some (if b then x :: ys else ys)))
  end.

(** [v[0]]; [None] is a TypeError. *)
Definition index0 (v : jsval) : option jsval :=
  match v with
  | JUndefined | JNull => None
  | JArr (x :: _) => Some x
  | JStr (String c _) => Some (JStr (String c EmptyString))
  | JObj _ => prop "0" v
  | _ => Some JUndefined
  end.

(** [v.toString()]; [None] is a TypeError. *)
Definition toString (v : jsval) : option string :=
  match v with JUndefined | JNull => None | _ => Some (js_to_string v) end.

(** The error a rejected promise carries when a [.then] handler throws a
    TypeError. *)
Definition type_error : err_value := ErrorObj "TypeError" None None.

Section Client.

Variable rt : runtime.

(** [x == 0] *)
Definition loose_eq_zero (v : jsval) : bool :=
  match v with
  | JUndefined | JNull => false
  | JBool b => negb b
  | JNum t => num_is_zero t
  | JStr s => num_is_zero (toNumber rt s)
  | JArr _ | JObj _ => num_is_zero (toNumber rt (js_to_string v))
  end.

(* ------------------------------------------------------------------ *)
(** ** The paginator [iterateRequestTxs] *)

Definition BITSTAMP_REQUEST_LIMIT : Z := 100.
Definition responseLength : Z := 1000.

(** The closure variables of [iterateRequestTxs]. *)
Record pstate : Type := {
  transactionsAll : list jsval;
  offset : Z;
  continueIteration : bool
}.

Definition pstate_init : pstate :=
  {| transactionsAll := []; offset := 0; continueIteration := true |}.

(** [earliestDate > currentTxDateTime] on two Date objects. *)
Definition date_gt (a b : option Z) : bool :=
  match a, b with Some x, Some y => Z.gtb x y | _, _ => false end.

(** [res.every(...)]: the transactions pushed, and whether [every] broke
    off; [None] is a TypeError. *)
Fixpoint every_scan (earliestDate : option Z) (res : list jsval)
    : option (list jsval * bool) :=
  match res with
  | [] => Some ([], false)
  | tx :: rest =>
      match prop "datetime" tx with
      | None => None
      | Some d =>
          if date_gt earliestDate (new_Date rt d) then Some ([], true)
          else match every_scan earliestDate rest with
               | None => None
               | Some (pushed, broke) => Some (tx :: pushed, broke)
               end
      end
  end.

(** The parameters [{limit, offset, sort}] of one request. *)
Definition page_params (st : pstate) : list (string * jsval) :=
  [("limit", JNum (Z_text BITSTAMP_REQUEST_LIMIT));
   ("offset", JNum (Z_text (offset st)));
   ("sort", JStr "desc")].

(** The body of the [_post] callback in [post]. *)
Definition post_step (earliestDate : option Z) (st : pstate) (r : err_value + jsval)
    : option (err_value + pstate) :=
  match r with
  | inl err => Some (inl err)
  | inr (JArr res) =>
      match every_scan earliestDate res with
      | None => None
      | Some (pushed, broke) =>
          Some (inr {| transactionsAll := transactionsAll st ++ pushed;
                       offset := offset st + responseLength;
                       continueIteration :=
                         continueIteration st && negb broke
                         && negb (Z.ltb (Z.of_nat (length res)) BITSTAMP_REQUEST_LIMIT) |})
      end
  | inr _ => None
  end.

(** [async.doWhilst(post, check, done)], at most [fuel] further rounds. *)
Fixpoint doWhilst {A} (fuel : nat) (self : Bitstamp) (earliestDate : option Z)
    (st : pstate) (done : err_value + list jsval -> io A) : io A :=
  _post self "user_transactions" (page_params st) (fun r =>
    match post_step earliestDate st r with
    | None => Crash
    | Some (inl err) => done (inl err)
    | Some (inr st') =>
        if continueIteration st' then
          match fuel with
          | O => Diverge
          | S f => doWhilst f self earliestDate st' done
          end
        else done (inr (transactionsAll st'))
    end).

Definition listing_error (err : err_value) : err_value :=
  constructError "Trades could not be listed." MODULE_ERROR (Some (CauseError err)).

Definition iterateRequestTxs {A} (fuel : nat) (self : Bitstamp) (earliestDate : option Z)
    (callback : err_value + list jsval -> io A) : io A :=
  doWhilst fuel self earliestDate pstate_init (fun r =>
    match r with
    | inl err => callback (inl (listing_error err))
    | inr deposits => callback (inr deposits)
    end).

(* ------------------------------------------------------------------ *)
(** ** Normalisers and listing operations *)

(** [constructTransactionObject] *)
Definition constructTransactionObject (currentTx : jsval) : option Transaction.t :=
  obind (prop "id" currentTx) (fun id =>
  obind (prop "datetime" currentTx) (fun datetime =>
  obind (utcISOString rt (js_to_string datetime)) (fun ts =>
  obind (prop "type" currentTx) (fun ty =>
  obind (prop "btc" currentTx) (fun btc =>
  obind (prop "usd" currentTx) (fun usd =>
  let '(amount, currency) :=
    if num_is_zero (parseFloat rt (js_to_string btc))
    then (toSmallestSubunit rt (JNum (parseFloat rt (js_to_string usd))) "USD", "USD")
    else (toSmallestSubunit rt (JNum (parseFloat rt (js_to_string btc))) "BTC", "BTC") in
  Some {| Transaction.externalId := js_to_string id;
          Transaction.timestamp := ts;
          Transaction.state := "completed";
          Transaction.amount := amount;
          Transaction.currency := currency;
          Transaction.type := if loose_eq_zero ty then "deposit" else "withdrawal";
          Transaction.raw := currentTx |})))))).

(** [latestTxDate] of [listTransactions]; [None] is a TypeError. *)
Definition transactionsBoundary (latestTransaction : jsval) : option (option Z) :=
  if truthy latestTransaction
  then obind (prop "raw" latestTransaction) (fun r =>
       obind (prop "datetime" r) (fun d => Some (new_Date rt d)))
  else Some (Some 0).

(** [Bitstamp.prototype.listTransactions] *)
Definition listTransactions (fuel : nat) (self : Bitstamp) (latestTransaction : jsval)
    : io (list Transaction.t) :=
  match transactionsBoundary latestTransaction with
  | None => Crash
  | Some latestTxDate =>
      iterateRequestTxs fuel self latestTxDate (fun r =>
        match r with
        | inl err => Throw err
        | inr transactions =>
            match obind
                    (filter_opt (fun tx => obind (prop "type" tx) (fun ty =>
                       Some (strict_eq_num ty TYPE_DEPOSIT || strict_eq_num ty TYPE_WITHDRAWAL)))
                       transactions)
                    (map_opt constructTransactionObject) with
            | None => Crash
            | Some txs => Ret txs
            end
        end)
  end.

(** The [.map] callback of [listTrades]. *)
Definition marketTradeObject (tx : jsval) : option MarketTrade.t :=
  obind (prop "order_id" tx) (fun oid =>
  obind (toString oid) (fun externalId =>
  obind (prop "btc" tx) (fun btc =>
  obind (prop "usd" tx) (fun usd =>
  obind (prop "fee" tx) (fun fee =>
  obind (prop "datetime" tx) (fun dt =>
  Some {| MarketTrade.externalId := externalId;
          MarketTrade.type := "limit";
          MarketTrade.state := "closed";
          MarketTrade.baseCurrency := "BTC";
          MarketTrade.baseAmount := toSmallestSubunit rt (JNum (parseFloat rt (js_to_string btc))) "BTC";
          MarketTrade.quoteCurrency := "USD";
          MarketTrade.quoteAmount := toSmallestSubunit rt (JNum (parseFloat rt (js_to_string usd))) "USD";
          MarketTrade.feeCurrency := "USD";
          MarketTrade.feeAmount := toSmallestSubunit rt (JNum (parseFloat rt (js_to_string fee))) "USD";
          MarketTrade.tradeTime := new_Date rt dt;
          MarketTrade.raw := tx |})))))).

(** [latestTxDate] of [listTrades]; [None] is a TypeError. *)
Definition tradesBoundary (latestTrade : jsval) : option (option Z) :=
  if truthy latestTrade
  then obind (prop "raw" latestTrade) (fun raw =>
       obind (prop "transactions" raw) (fun trs =>
       if truthy trs
       then obind (index0 trs) (fun t0 =>
            obind (prop "datetime" t0) (fun d => Some (new_Date rt d)))
       else obind (prop "datetime" raw) (fun d => Some (new_Date rt d))))
  else Some (Some 0).

(** [Bitstamp.prototype.listTrades]; the returned promise resolves to
    [Ret] and rejects with [Throw]. *)
Definition listTrades (fuel : nat) (self : Bitstamp) (latestTrade : jsval)
    : io (list MarketTrade.t) :=
  match tradesBoundary latestTrade with
  | None => Crash
  | Some latestTxDate =>
      iterateRequestTxs fuel self latestTxDate (fun r =>
        match r with
        | inl err => Throw err
        | inr transactions =>
            match obind
                    (filter_opt (fun tx => obind (prop "type" tx) (fun ty =>
                       Some (strict_eq_num ty TYPE_MARKET_TRADE))) transactions)
                    (map_opt marketTradeObject) with
            | None => Throw type_error
            | Some trades => Ret trades
            end
        end)
  end.

(** What [_post] hands its callback when the exchange answers [net]:
    [None] is a TypeError in [requestFunction]. *)
Definition post_result (net : http_method -> string -> list (string * jsval) -> transport_result)
    (self : Bitstamp) (action : string) (params : list (string * jsval))
    : option (err_value + jsval) :=
  if negb (truthy (key self)) || negb (truthy (secret self)) || negb (truthy (clientId self))
  then Some (inl (ErrorString "Must provide key, secret and client ID to make this API request."))
  else _request (net POST action params).

(** The paginator state after [n] successful rounds that each left
    [continueIteration] set, from [st]. *)
Fixpoint reach (net : http_method -> string -> list (string * jsval) -> transport_result)
    (self : Bitstamp) (earliestDate : option Z) (n : nat) (st : pstate) : option pstate :=
  match n with
  | O => Some st
  | S n' =>
      match post_result net self "user_transactions" (page_params st) with
      | Some r =>
          match post_step earliestDate st r with
          | Some (inr st') =>
              if continueIteration st' then reach net self earliestDate n' st' else None
          | _ => None
          end
      | None => None
      end
  end.

End Client.

(** The requests a chain issues against [net], in order. *)
Fixpoint requests {A} (net : http_method -> string -> list (string * jsval) -> transport_result)
    (m : io A) : list (http_method * string * list (string * jsval)) :=
  match m with
  | Net meth a p k => (meth, a, p) :: requests net (k (net meth a p))
  | _ => []
  end.

(* ------------------------------------------------------------------ *)
(** ** Endpoint methods *)

Module Order.
Record t : Type := {
  externalId : string;
  type : string;
  state : string;
  baseAmount : Z;
  quoteAmount : Z;
  baseCurrency : string;
  quoteCurrency : string;
  feeAmount : Z;
  feeCurrency : string;
  raw : jsval
}.
End Order.

Module PlacedTrade.
Record t : Type := {
  externalId : string;
  type : string;
  state : string;
  baseAmount : jsval;
  baseCurrency : string;
  quoteCurrency : string;
  limitPrice : jsval;
  raw : jsval
}.
End PlacedTrade.

Module Ticker.
Record t : Type := {
  baseCurrency : string;
  quoteCurrency : string;
  bid : string;
  ask : string;
  lastPrice : string;
  high24Hours : string;
  low24Hours : string;
  vwap24Hours : string;
  volume24Hours : Z
}.
End Ticker.

Module OrderBook.
Record entry : Type := { price : string; baseAmount : Z }.
Record t : Type := {
  baseCurrency : string;
  quoteCurrency : string;
  bids : list entry;
  asks : list entry
}.
End OrderBook.

Module Balance.
Record t : Type := {
  available_USD : Z;
  available_BTC : Z;
  total_USD : Z;
  total_BTC : Z
}.
End Balance.

(** [v[n]]; [None] is a TypeError. *)
Definition index_at (v : jsval) (n : nat) : option jsval :=
  match v with
  | JUndefined | JNull => None
  | JArr l => Some (nth n l JUndefined)
  | JStr s => Some (match String.get n s with
                    | Some c => JStr (String c EmptyString)
                    | None => JUndefined
                    end)
  | JObj _ => prop (Z_text (Z.of_nat n)) v
  | _ => Some JUndefined
  end.

(** [_.defaults(res, {id: id})] *)
Definition defaults_id (res id : jsval) : jsval :=
  match res with
  | JObj fs =>
      match prop "id" res with
      | Some JUndefined => JObj (fs ++ [("id", id)])%list
      | _ => res
      end
  | _ => res
  end.

(** [_.extend(res, {k: v})] *)
Definition extend (res : jsval) (k : string) (v : jsval) : jsval :=
  match res with
  | JObj fs => JObj (filter (fun kv => negb (String.eqb (fst kv) k)) fs ++ [(k, v)])%list
  | _ => res
  end.

(** [_.sum] *)
Definition sum (l : list Z) : Z := fold_right Z.add 0 l.

Definition as_array (v : jsval) : option (list jsval) :=
  match v with JArr l => Some l | _ => None end.

Definition as_string (v : jsval) : option string :=
  match v with JStr s => Some s | _ => None end.

Section Endpoints.

Variable rt : runtime.

(** The [order_status] callback body of [getTrade]. *)
Definition orderOfStatus (id orderType res : jsval) : option Order.t :=
  let res := defaults_id res id in
  obind (toString id) (fun externalId =>
  obind (obind (prop "status" res) as_string) (fun status =>
  obind (obind (prop "transactions" res) as_array) (fun transactions =>
  obind (map_opt (fun tx => obind (prop "btc" tx) (fun btc =>
           let baseAmount := toSmallestSubunit rt btc "BTC" in
           Some (if loose_eq_str orderType TYPE_SELL_ORDER then - baseAmount else baseAmount)))
         transactions) (fun baseAmounts =>
  obind (map_opt (fun tx => obind (prop "usd" tx) (fun usd =>
           let quoteAmount := toSmallestSubunit rt usd "USD" in
           Some (if loose_eq_str orderType TYPE_BUY_ORDER then - quoteAmount else quoteAmount)))
         transactions) (fun quoteAmounts =>
  obind (map_opt (fun tx => obind (prop "fee" tx) (fun fee =>
           Some (toSmallestSubunit rt fee "USD"))) transactions) (fun feeAmounts =>
  Some {| Order.externalId := externalId;
          Order.type := "limit";
          Order.state := if String.eqb (toLowerCase status) "finished" then "closed" else "open";
          Order.baseAmount := sum baseAmounts;
          Order.quoteAmount := sum quoteAmounts;
          Order.baseCurrency := "BTC";
          Order.quoteCurrency := "USD";
          Order.feeAmount := sum feeAmounts;
          Order.feeCurrency := "USD";
          Order.raw := res |})))))).

(** [Bitstamp.prototype.getTrade] *)
Definition getTrade (self : Bitstamp) (trade : jsval) : io Order.t :=
  if negb (truthy trade)
  then Throw (constructError "Trade object is a required parameter." MODULE_ERROR None)
  else
  match obind (prop "raw" trade) (prop "orderType"),
        obind (prop "raw" trade) (prop "id") with
  | Some orderType, Some id =>
      if negb (loose_eq_str orderType TYPE_SELL_ORDER) && negb (loose_eq_str orderType TYPE_BUY_ORDER)
      then Throw (constructError
             "Trade object must have a raw orderType parameter with value either 'sell' or 'buy'."
             MODULE_ERROR None)
      else _post self "order_status" [("id", id)] (fun r =>
             match r with
             | inl err => Throw err
             | inr res =>
                 match orderOfStatus id orderType res with
                 | None => Crash
                 | Some order => Ret order
                 end
             end)
  | _, _ => Crash
  end.

(** [Bitstamp.prototype.placeTrade] *)
Definition placeTrade (self : Bitstamp) (baseAmount limitPrice : jsval)
    (baseCurrency quoteCurrency : string) : io PlacedTrade.t :=
  let baseCurrency := toUpperCase baseCurrency in
  let quoteCurrency := toUpperCase quoteCurrency in
  if negb (String.eqb baseCurrency "BTC") || negb (String.eqb quoteCurrency "USD")
  then Throw (constructError "Base and Quote currencies should be BTC and USD, respectively"
                MODULE_ERROR None)
  else match baseAmount with
  | JNum b =>
      if num_is_zero b
      then Throw (constructError "The base amount must be a number." MODULE_ERROR None)
      else match limitPrice with
      | JNum p =>
          if num_lt_zero p
          then Throw (constructError "The limit price must be a positive number." MODULE_ERROR None)
          else
            let orderType := if num_lt_zero b then TYPE_SELL_ORDER else TYPE_BUY_ORDER in
            let amountSubUnit :=
              if String.eqb orderType TYPE_SELL_ORDER then JNum (num_neg b) else baseAmount in
            let amountMainUnit := fromSmallestSubunit rt amountSubUnit "BTC" in
            _post self orderType [("amount", amountMainUnit); ("price", limitPrice)] (fun r =>
              match r with
              | inl err => Throw err
              | inr res =>
                  match obind (prop "id" res) toString with
                  | None => Crash
                  | Some externalId =>
                      Ret {| PlacedTrade.externalId := externalId;
                             PlacedTrade.type := "limit";
                             PlacedTrade.state := "open";
                             PlacedTrade.baseAmount := baseAmount;
                             PlacedTrade.baseCurrency := "BTC";
                             PlacedTrade.quoteCurrency := "USD";
                             PlacedTrade.limitPrice := limitPrice;
                             PlacedTrade.raw := extend res "orderType" (JStr orderType) |}
                  end
              end)
      | _ => Throw (constructError "The limit price must be a positive number." MODULE_ERROR None)
      end
  | _ => Throw (constructError "The base amount must be a number." MODULE_ERROR None)
  end.

(** [Bitstamp.prototype.getBalance] *)
Definition getBalance (self : Bitstamp) : io Balance.t :=
  _post self "balance" [] (fun r =>
    match r with
    | inl err => Throw err
    | inr res =>
        match prop "usd_available" res, prop "btc_available" res,
              prop "usd_balance" res, prop "btc_balance" res with
        | Some ua, Some ba, Some ub, Some bb =>
            Ret {| Balance.available_USD := toSmallestSubunit rt ua "USD";
                   Balance.available_BTC := toSmallestSubunit rt ba "BTC";
                   Balance.total_USD := toSmallestSubunit rt ub "USD";
                   Balance.total_BTC := toSmallestSubunit rt bb "BTC" |}
        | _, _, _, _ => Crash
        end
    end).

(** [parseFloat(v)] *)
Definition js_parseFloat (v : jsval) : string := parseFloat rt (js_to_string v).

(** [Bitstamp.prototype.getTicker] *)
Definition getTicker (self : Bitstamp) (baseCurrency quoteCurrency : string) : io Ticker.t :=
  let baseCurrency := toUpperCase baseCurrency in
  let quoteCurrency := toUpperCase quoteCurrency in
  if negb (String.eqb baseCurrency "BTC") || negb (String.eqb quoteCurrency "USD")
  then Throw (constructError
         "Bitstamp only supports BTC and USD as base and quote currencies, respectively."
         MODULE_ERROR None)
  else _get "ticker" (fun r =>
    match r with
    | inl err => Throw err
    | inr res =>
        match prop "bid" res, prop "ask" res, prop "last" res, prop "high" res,
              prop "low" res, prop "vwap" res, prop "volume" res with
        | Some bid, Some ask, Some last, Some high, Some low, Some vwap, Some volume =>
            Ret {| Ticker.baseCurrency := baseCurrency;
                   Ticker.quoteCurrency := quoteCurrency;
                   Ticker.bid := js_parseFloat bid;
                   Ticker.ask := js_parseFloat ask;
                   Ticker.lastPrice := js_parseFloat last;
                   Ticker.high24Hours := js_parseFloat high;
                   Ticker.low24Hours := js_parseFloat low;
                   Ticker.vwap24Hours := js_parseFloat vwap;
                   Ticker.volume24Hours :=
                     toSmallestSubunit rt (JNum (js_parseFloat volume)) baseCurrency |}
        | _, _, _, _, _, _, _ => Crash
        end
    end).

(** [convertRawEntry] of [getOrderBook] *)
Definition convertRawEntry (entry : jsval) : option OrderBook.entry :=
  obind (index_at entry 0) (fun p =>
  obind (index_at entry 1) (fun a =>
  Some {| OrderBook.price := js_parseFloat p;
          OrderBook.baseAmount := toSmallestSubunit rt (JNum (js_parseFloat a)) "BTC" |})).

(** [(res.x || []).map(convertRawEntry)] *)
Definition convertSide (side : jsval) : option (list OrderBook.entry) :=
  obind (as_array (js_or side (JArr []))) (map_opt convertRawEntry).

(** [Bitstamp.prototype.getOrderBook] *)
Definition getOrderBook (self : Bitstamp) (baseCurrency quoteCurrency : string)
    : io OrderBook.t :=
  let baseCurrency := toUpperCase baseCurrency in
  let quoteCurrency := toUpperCase quoteCurrency in
  if negb (String.eqb baseCurrency "BTC") || negb (String.eqb quoteCurrency "USD")
  then Throw (constructError
         "Bitstamp only supports BTC and USD as base and quote currencies, respectively."
         MODULE_ERROR None)
  else _get "order_book" (fun r =>
    match r with
    | inl err => Throw err
    | inr res =>
        match obind (prop "bids" res) convertSide, obind (prop "asks" res) convertSide with
        | Some bids, Some asks =>
            Ret {| OrderBook.baseCurrency := baseCurrency;
                   OrderBook.quoteCurrency := quoteCurrency;
                   OrderBook.bids := bids;
                   OrderBook.asks := asks |}
        | _, _ => Crash
        end
    end).

End Endpoints.

(* ------------------------------------------------------------------ *)
(** ** A concrete runtime and exchange for the examples *)

(** Digits to an integer (non-digit characters count as 0). *)
Fixpoint digits_value (s : string) (acc : Z) : Z :=
  match s with
  | EmptyString => acc
  | String c r => digits_value r (acc * 10 + (Z.of_nat (nat_of_ascii c) - 48))
  end.
Definition Z_of_text (t : string) : Z :=
  match t with String "-" r => - digits_value r 0 | _ => digits_value t 0 end.

(** A runtime on integer-valued numbers: [new Date(n)] is [n] ms,
    amounts already in subunits. *)
Definition demo_rt : runtime := {|
  parseFloat := fun s => s;
  toNumber := fun s => s;
  new_Date := fun v => match v with JNum t => Some (Z_of_text t) | _ => None end;
  utcISOString := fun s => Some s;
  toSmallestSubunit := fun v _ => match v with JNum t => Z_of_text t | _ => 0 end;
  fromSmallestSubunit := fun v _ => v
|}.

Definition lookup_param (k : string) (ps : list (string * jsval)) : jsval :=
  match find (fun kv => String.eqb (fst kv) k) ps with Some kv => snd kv | None => JUndefined end.

(** An exchange holding [history] (newest first) that answers a
    [user_transactions] request with [limit] entries from [offset]. *)
Definition history_exchange (history : list jsval)
    (meth : http_method) (action : string) (ps : list (string * jsval)) : transport_result :=
  let n p := match lookup_param p ps with JNum t => Z.to_nat (Z_of_text t) | _ => O end in
  {| tr_err := None; tr_res_error := JUndefined;
     tr_body := Parsed (JArr (firstn (n "limit") (skipn (n "offset") history))) |}.

(** A deposit of 1 satoshi at time [z]. *)
Definition demo_tx (z : Z) : jsval :=
  JObj [("id", JNum (Z_text z)); ("datetime", JNum (Z_text z)); ("type", JNum "0");
        ("btc", JNum "1"); ("usd", JNum "0")].

(** 250 deposits at times 250, 249, ..., 1. *)
Definition history250 : list jsval :=
  map (fun i => demo_tx (Z.of_nat (250 - i))) (List.seq 0 250).

Definition demo_client : Bitstamp :=
  {| key := JStr "k"; secret := JStr "s"; clientId := JStr "c" |}.

(** Whether a list holds a transaction with [datetime] equal to [z]. *)
Definition has_time (z : Z) (l : list jsval) : bool :=
  existsb (fun tx => match prop "datetime" tx with
                     | Some (JNum t) => String.eqb t (Z_text z)
                     | _ => false
                     end) l.

Definition raw_result (r : err_value + list jsval) : io (list jsval) :=
  match r with inl e => Throw e | inr l => Ret l end.

(** A network exception. *)
Definition timeout_exc : err_value := ErrorObj "ETIMEDOUT" None None.

(** The exchange of [history250] whose every request past the first page
    times out. *)
Definition flaky_exchange (meth : http_method) (action : string)
    (ps : list (string * jsval)) : transport_result :=
  match lookup_param "offset" ps with
  | JNum t =>
      if String.eqb t "0" then history_exchange history250 meth action ps
      else {| tr_err := Some timeout_exc; tr_res_error := JUndefined; tr_body := NoBody |}
  | _ => {| tr_err := Some timeout_exc; tr_res_error := JUndefined; tr_body := NoBody |}
  end.

(** The sell-side message of the exchange and a body carrying it. *)
Definition sell_message : string :=
  "You have only 0.00000000 BTC available. Check your account balance for details.".
Definition insufficient_funds_body : jsval :=
  JObj [("error", JObj [("__all__", JArr [JStr sell_message])])].
Definition insufficient_funds_response : transport_result :=
  {| tr_err := None; tr_res_error := JUndefined; tr_body := Parsed insufficient_funds_body |}.

(** A client constructed without an API key. *)
Definition keyless_client : Bitstamp :=
  {| key := JUndefined; secret := JStr "s"; clientId := JStr "c" |}.

(** A sell order of two fills, reported as "FINISHED". *)
Definition demo_trade : jsval :=
  JObj [("raw", JObj [("id", JNum "7"); ("orderType", JStr "sell")])].
Definition demo_fill : jsval :=
  JObj [("btc", JNum "50"); ("usd", JNum "1500"); ("fee", JNum "3")].
Definition demo_order_status : jsval :=
  JObj [("status", JStr "FINISHED"); ("transactions", JArr [demo_fill; demo_fill])].
Definition order_exchange (meth : http_method) (action : string)
    (ps : list (string * jsval)) : transport_result :=
  {| tr_err := None; tr_res_error := JUndefined; tr_body := Parsed demo_order_status |}.

(* ------------------------------------------------------------------ *)
(** ** The constructor and the request options *)

(** lib/constants.js *)
Definition HOST : string := "https://www.bitstamp.net".
Definition REQUEST_TIMEOUT : jsval := JNum "5000".

(** The object built by [new Bitstamp(settings)]: the credentials the
    methods above read, and the [host] and [timeout] of every request. *)
Record client : Type := {
  credentials : Bitstamp;
  host : jsval;
  timeout : jsval
}.

(** [new Bitstamp(settings)]; [None] is the TypeError of a [settings] that
    is [undefined] or [null]. *)
Definition new_Bitstamp (settings : jsval) : option client :=
  obind (prop "key" settings) (fun k =>
  obind (prop "secret" settings) (fun s =>
  obind (prop "clientId" settings) (fun c =>
  obind (prop "host" settings) (fun h =>
  obind (prop "timeout" settings) (fun t =>
  Some {| credentials := {| key := k; secret := s; clientId := c |};
          host := js_or h (JStr HOST);
          timeout := js_or t REQUEST_TIMEOUT |}))))).

(** The [url], [method] and [timeout] of the options object that [_get]
    and [_post] hand to [_request]. *)
Record request_options : Type := {
  url : string;
  method : string;
  opt_timeout : jsval
}.

(** [this.host + path] with [path = '/api/' + action + '/']. *)
Definition request_url (self : client) (action : string) : string :=
  js_to_string (host self) ++ "/api/" ++ action ++ "/".

Definition get_options (self : client) (action : string) : request_options :=
  {| url := request_url self action; method := "GET"; opt_timeout := timeout self |}.

Definition post_options (self : client) (action : string) : request_options :=
  {| url := request_url self action; method := "POST"; opt_timeout := timeout self |}.

(** The trade object [placeTrade] hands its callback, as a JS object. *)
Definition placed_trade_js (p : PlacedTrade.t) : jsval :=
  JObj [("externalId", JStr (PlacedTrade.externalId p));
        ("type", JStr (PlacedTrade.type p));
        ("state", JStr (PlacedTrade.state p));
        ("baseAmount", PlacedTrade.baseAmount p);
        ("baseCurrency", JStr (PlacedTrade.baseCurrency p));
        ("quoteCurrency", JStr (PlacedTrade.quoteCurrency p));
        ("limitPrice", PlacedTrade.limitPrice p);
        ("raw", PlacedTrade.raw p)].

(** Whether the scan of [iterateRequestTxs] keeps [tx]: it has a
    [datetime] that is not strictly before [earliestDate]. *)
Definition not_older (rt : runtime) (earliestDate : option Z) (tx : jsval) : bool :=
  match prop "datetime" tx with
  | Some d => negb (date_gt earliestDate (new_Date rt d))
  | None => false
  end.

(** The order-book entries built from one raw side [res.bids] or
    [res.asks]: none for a falsy side, else one per raw entry, in order. *)
Definition converted_side (rt : runtime) (rawSide : jsval) (entries : list OrderBook.entry)
    : Prop :=
  (truthy rawSide = false /\ entries = [])
  \/ exists l, rawSide = JArr l
     /\ Forall2 (fun e x => exists p a, index_at e 0 = Some p /\ index_at e 1 = Some a
                   /\ OrderBook.price x = js_parseFloat rt p
                   /\ OrderBook.baseAmount x
                      = toSmallestSubunit rt (JNum (js_parseFloat rt a)) "BTC") l entries.

(** A buy-side insufficient-funds message of the exchange. *)
Definition buy_message : string :=
  "You need 1.50000000 BTC to open that order. You have only 0.50000000 BTC available. Check your account balance for details.".

(** An exchange that answers every request with the transport result [t]. *)
Definition constant_exchange (t : transport_result)
    (meth : http_method) (action : string) (ps : list (string * jsval)) : transport_result := t.

(** A successful answer carrying [data]. *)
Definition ok_response (data : jsval) : transport_result :=
  {| tr_err := None; tr_res_error := JUndefined; tr_body := Parsed data |}.

(** A withdrawal of 1 satoshi at time [z], and a market trade. *)
Definition demo_withdrawal (z : Z) : jsval :=
  JObj [("id", JNum (Z_text z)); ("datetime", JNum (Z_text z)); ("type", JNum "1");
        ("btc", JNum "1"); ("usd", JNum "0")].
Definition demo_market_trade (z : Z) : jsval :=
  JObj [("id", JNum (Z_text z)); ("order_id", JNum "42"); ("datetime", JNum (Z_text z));
        ("type", JNum "2"); ("btc", JNum "5"); ("usd", JNum "150"); ("fee", JNum "1")].

(* ------------------------------------------------------------------ *)
(** ** Facts about the response interpreter *)

Lemma matches_head (p : ascii -> bool) (r1 r2 : Regex.re) (c : ascii) (s : list ascii)
    (k : list ascii -> bool) :
  Regex.matches (Regex.Cat (Regex.Cat (Regex.Chr p) r1) r2) (c :: s) k = true -> p c = true.
Proof. cbn; intros H; apply andb_prop in H; tauto. Qed.

Lemma sell_pattern_head (s : string) :
  Regex.test Regex.REGEX_PATTERN_SELL_ERROR_INSUFFICIENT_FUNDS s = true ->
  exists r, s = String "Y" r.
Proof.
  destruct s as [|c r]; [discriminate|].
  unfold Regex.test; cbn [list_ascii_of_string].
  intros H; apply matches_head in H.
  apply Ascii.eqb_eq in H; subst; eauto.
Qed.

Lemma buy_pattern_head (s : string) :
  Regex.test Regex.REGEX_PATTERN_BUY_ERROR_INSUFFICIENT_FUNDS s = true ->
  exists r, s = String "Y" r.
Proof.
  destruct s as [|c r]; [discriminate|].
  unfold Regex.test; cbn [list_ascii_of_string].
  intros H; apply matches_head in H.
  apply Ascii.eqb_eq in H; subst; eauto.
Qed.

(** A value whose string form starts with "Y" is truthy. *)
Lemma Y_string_truthy (m : jsval) (r : string) :
  js_to_string m = String "Y" r -> truthy m = true.
Proof.
  destruct m as [| |[]|t|s|l|fs]; cbn; intros H; try discriminate; auto.
  - subst t; reflexivity.
  - subst s; reflexivity.
Qed.

Lemma find_matching_some (r : Regex.re) (msgs : list jsval) (m : jsval) :
  find (fun x => Regex.test r (js_to_string x)) msgs = Some m ->
  find_matching r (JArr msgs) = m /\ In m msgs /\ Regex.test r (js_to_string m) = true.
Proof.
  intros H; unfold find_matching; cbn; rewrite H.
  apply find_some in H as [Hin Ht]; auto.
Qed.

(** Simplify without unfolding the matcher or the patterns. *)
Ltac cbn_keep :=
  cbn -[find_matching Regex.test Regex.REGEX_PATTERN_BUY_ERROR_INSUFFICIENT_FUNDS
        Regex.REGEX_PATTERN_SELL_ERROR_INSUFFICIENT_FUNDS].

Lemma pattern_match_truthy (m : jsval) :
  (Regex.test Regex.REGEX_PATTERN_BUY_ERROR_INSUFFICIENT_FUNDS (js_to_string m)
   || Regex.test Regex.REGEX_PATTERN_SELL_ERROR_INSUFFICIENT_FUNDS (js_to_string m)) = true ->
  truthy m = true.
Proof.
  intros H; apply orb_prop in H as [H|H];
    [apply buy_pattern_head in H | apply sell_pattern_head in H];
    destruct H as [r Hr]; exact (Y_string_truthy m r Hr).
Qed.

(** C4: when the [error.__all__] list of a parsed body holds a message
    matching the buy-side or the sell-side insufficient-funds pattern,
    [_request] reports an [INSUFFICIENT_FUNDS] error whose message is a
    matching message of that list, verbatim. *)
Theorem request_insufficient_funds (t : transport_result) (data derr : jsval)
    (msgs : list jsval) :
  tr_err t = None ->
  tr_body t = Parsed data ->
  truthy (tr_res_error t) = false ->
  prop "error" data = Some derr ->
  prop "__all__" derr = Some (JArr msgs) ->
  (exists m, In m msgs /\
     (Regex.test Regex.REGEX_PATTERN_BUY_ERROR_INSUFFICIENT_FUNDS (js_to_string m)
      || Regex.test Regex.REGEX_PATTERN_SELL_ERROR_INSUFFICIENT_FUNDS (js_to_string m)) = true) ->
  exists m, In m msgs /\
    (Regex.test Regex.REGEX_PATTERN_BUY_ERROR_INSUFFICIENT_FUNDS (js_to_string m)
     || Regex.test Regex.REGEX_PATTERN_SELL_ERROR_INSUFFICIENT_FUNDS (js_to_string m)) = true /\
    _request t = Some (inl (constructError (js_to_string m) INSUFFICIENT_FUNDS None)).
Proof.
  intros Herr Hbody Hres Hdata Hall [m0 [Hin0 Hm0]].
  assert (Hderr : truthy derr = true)
    by (destruct derr; cbn in Hall; try discriminate; reflexivity).
  unfold _request; rewrite Herr, Hbody, Hres, Hdata, Hderr; cbn_keep.
  unfold body_error; rewrite Hall; cbn_keep.
  destruct (find (fun x => Regex.test Regex.REGEX_PATTERN_BUY_ERROR_INSUFFICIENT_FUNDS
                             (js_to_string x)) msgs) as [mb|] eqn:Hb.
  - apply find_matching_some in Hb as [-> [Hin Ht]].
    assert (Htr : truthy mb = true) by (apply pattern_match_truthy; rewrite Ht; reflexivity).
    exists mb; unfold js_or; rewrite Htr, Htr, Ht; auto.
  - assert (Hnb : find_matching Regex.REGEX_PATTERN_BUY_ERROR_INSUFFICIENT_FUNDS (JArr msgs)
                  = JUndefined) by (unfold find_matching; cbn [collection_elems]; rewrite Hb; reflexivity).
    rewrite Hnb; unfold js_or; cbn [truthy].
    pose proof (find_none _ _ Hb m0 Hin0) as Hb0; cbn beta in Hb0.
    rewrite Hb0 in Hm0; cbn [orb] in Hm0.
    destruct (find (fun x => Regex.test Regex.REGEX_PATTERN_SELL_ERROR_INSUFFICIENT_FUNDS
                               (js_to_string x)) msgs) as [ms|] eqn:Hs.
    + apply find_matching_some in Hs as [-> [Hin Ht]].
      assert (Htr : truthy ms = true)
        by (apply pattern_match_truthy; rewrite Ht, orb_true_r; reflexivity).
      exists ms; rewrite Htr, Ht, orb_true_r; auto.
    + pose proof (find_none _ _ Hs m0 Hin0) as Hs0; cbn beta in Hs0; congruence.
Qed.

(* ------------------------------------------------------------------ *)
(** ** The paginator *)

(** C1: against an exchange holding 250 transactions, all newer than the
    epoch boundary, the paginator requests offsets 0 and 1000 (the offset
    grows by 1000 while a page holds 100), and returns only the first 100:
    the transaction at time 150, newer than the boundary, is missing. *)
Theorem iterateRequestTxs_skips_history :
  requests (history_exchange history250)
    (iterateRequestTxs demo_rt 5%nat demo_client (Some 0) raw_result)
  = [(POST, "user_transactions",
      [("limit", JNum "100"); ("offset", JNum "0"); ("sort", JStr "desc")]);
     (POST, "user_transactions",
      [("limit", JNum "100"); ("offset", JNum "1000"); ("sort", JStr "desc")])]
  /\ run (history_exchange history250)
       (iterateRequestTxs demo_rt 5%nat demo_client (Some 0) raw_result)
     = Ret (firstn 100 history250)
  /\ has_time 150 history250 = true
  /\ has_time 150 (firstn 100 history250) = false.
Proof. vm_compute; repeat split. Qed.

Lemma every_scan_prefix (rt : runtime) (bd : option Z) (pre post : list jsval)
    (tx d : jsval) :
  Forall (fun x => exists dx, prop "datetime" x = Some dx
                              /\ date_gt bd (new_Date rt dx) = false) pre ->
  prop "datetime" tx = Some d ->
  date_gt bd (new_Date rt d) = true ->
  every_scan rt bd (pre ++ tx :: post)%list = Some (pre, true).
Proof.
  intros Hpre Htx Hd; induction Hpre as [|x pre [dx [Hx Hgt]] _ IH]; cbn.
  - rewrite Htx, Hd; reflexivity.
  - rewrite Hx, Hgt, IH; reflexivity.
Qed.

(** C2 (amended): scanning a page stops at the first transaction that is
    strictly older than the boundary; the transactions before it, none of
    them strictly older (one exactly at the boundary included), are
    appended in order, it and everything after it are not, and the loop is
    marked for termination. *)
Theorem post_step_stops_at_older (rt : runtime) (bd : option Z) (st : pstate)
    (pre post : list jsval) (tx d : jsval) :
  Forall (fun x => exists dx, prop "datetime" x = Some dx
                              /\ date_gt bd (new_Date rt dx) = false) pre ->
  prop "datetime" tx = Some d ->
  date_gt bd (new_Date rt d) = true ->
  exists st', post_step rt bd st (inr (JArr (pre ++ tx :: post)%list)) = Some (inr st')
    /\ transactionsAll st' = (transactionsAll st ++ pre)%list
    /\ continueIteration st' = false.
Proof.
  intros Hpre Htx Hd; unfold post_step.
  rewrite (every_scan_prefix rt bd pre post tx d Hpre Htx Hd).
  eexists; split; [reflexivity|]; cbn; split; [reflexivity|].
  now rewrite andb_false_r.
Qed.

Lemma post_step_stops_at_older_witness :
  Forall (fun x => exists dx, prop "datetime" x = Some dx
            /\ date_gt (Some 5) (new_Date demo_rt dx) = false) [demo_tx 7; demo_tx 5]
  /\ exists st', post_step demo_rt (Some 5) pstate_init
                   (inr (JArr (([demo_tx 7; demo_tx 5] ++ demo_tx 4 :: [demo_tx 3])%list))) = Some (inr st')
       /\ transactionsAll st' = (transactionsAll pstate_init ++ [demo_tx 7; demo_tx 5])%list
       /\ continueIteration st' = false.
Proof.
  assert (H : Forall (fun x => exists dx, prop "datetime" x = Some dx
            /\ date_gt (Some 5) (new_Date demo_rt dx) = false) [demo_tx 7; demo_tx 5]).
  { repeat constructor; eexists; split; reflexivity. }
  split; [exact H|].
  exact (post_step_stops_at_older demo_rt (Some 5) pstate_init [demo_tx 7; demo_tx 5]
           [demo_tx 3] (demo_tx 4) (JNum "4") H eq_refl eq_refl).
Defined.

(** C2 fails as stated: a transaction whose timestamp equals the boundary
    is appended to the accumulator. *)
Lemma post_step_keeps_boundary_tx :
  post_step demo_rt (Some 5) pstate_init (inr (JArr [demo_tx 6; demo_tx 5]))
  = Some (inr {| transactionsAll := [demo_tx 6; demo_tx 5]; offset := 1000;
                 continueIteration := false |}).
Proof. vm_compute; reflexivity. Qed.

Lemma run_post {A} (net : http_method -> string -> list (string * jsval) -> transport_result)
    (self : Bitstamp) (action : string) (params : list (string * jsval))
    (k : err_value + jsval -> io A) :
  run net (_post self action params k)
  = match post_result net self action params with
    | None => Crash
    | Some r => run net (k r)
    end.
Proof.
  unfold _post, post_result.
  destruct (negb (truthy (key self)) || negb (truthy (secret self))
            || negb (truthy (clientId self))); [reflexivity|].
  cbn; unfold interpreted; destruct (_request _); reflexivity.
Qed.

(** A page request that fails after [n] successful rounds ends the loop
    in [done] with that error. *)
Lemma doWhilst_error {A} (rt : runtime)
    (net : http_method -> string -> list (string * jsval) -> transport_result)
    (self : Bitstamp) (bd : option Z) (done : err_value + list jsval -> io A) :
  forall n st0 st e fuel,
  reach rt net self bd n st0 = Some st ->
  post_result net self "user_transactions" (page_params st) = Some (inl e) ->
  (n <= fuel)%nat ->
  run net (doWhilst rt fuel self bd st0 done) = run net (done (inl e)).
Proof.
  induction n as [|n IH]; intros st0 st e fuel Hreach Hfail Hle.
  - cbn in Hreach; injection Hreach as <-.
    destruct fuel; cbn [doWhilst]; rewrite run_post, Hfail; reflexivity.
  - cbn in Hreach.
    destruct (post_result net self "user_transactions" (page_params st0)) as [r|] eqn:Hr;
      [|discriminate].
    destruct (post_step rt bd st0 r) as [[e'|st1]|] eqn:Hs; try discriminate.
    destruct (continueIteration st1) eqn:Hc; [|discriminate].
    destruct fuel as [|fuel]; [lia|].
    cbn [doWhilst]; rewrite run_post, Hr, Hs, Hc.
    apply (IH st1 st e fuel Hreach Hfail); lia.
Qed.

(** C3: in [listTransactions] and in [listTrades], when the request for
    any page fails (after any number of successful pages), the whole
    operation fails with the single listing error wrapping that failure,
    and no transactions are returned. *)
Theorem listing_fails_on_any_page (rt : runtime)
    (net : http_method -> string -> list (string * jsval) -> transport_result)
    (self : Bitstamp) :
  (forall latest bd n st e fuel,
     transactionsBoundary rt latest = Some bd ->
     reach rt net self bd n pstate_init = Some st ->
     post_result net self "user_transactions" (page_params st) = Some (inl e) ->
     (n <= fuel)%nat ->
     run net (listTransactions rt fuel self latest) = Throw (listing_error e))
  /\ (forall latest bd n st e fuel,
     tradesBoundary rt latest = Some bd ->
     reach rt net self bd n pstate_init = Some st ->
     post_result net self "user_transactions" (page_params st) = Some (inl e) ->
     (n <= fuel)%nat ->
     run net (listTrades rt fuel self latest) = Throw (listing_error e)).
Proof.
  split; intros latest bd n st e fuel Hbd Hreach Hfail Hle.
  - unfold listTransactions; rewrite Hbd; unfold iterateRequestTxs.
    erewrite doWhilst_error by eassumption; reflexivity.
  - unfold listTrades; rewrite Hbd; unfold iterateRequestTxs.
    erewrite doWhilst_error by eassumption; reflexivity.
Qed.

Lemma listing_fails_on_any_page_witness :
  let st := {| transactionsAll := firstn 100 history250; offset := 1000;
               continueIteration := true |} in
  let e := constructError "There is an error in the response from the Bitstamp service..."
             EXCHANGE_SERVER_ERROR (Some (CauseError timeout_exc)) in
  transactionsBoundary demo_rt JUndefined = Some (Some 0)
  /\ reach demo_rt flaky_exchange demo_client (Some 0) 1 pstate_init = Some st
  /\ post_result flaky_exchange demo_client "user_transactions" (page_params st) = Some (inl e)
  /\ run flaky_exchange (listTransactions demo_rt 3%nat demo_client JUndefined)
     = Throw (listing_error e).
Proof.
  intros st e.
  assert (H1 : transactionsBoundary demo_rt JUndefined = Some (Some 0)) by reflexivity.
  assert (H2 : reach demo_rt flaky_exchange demo_client (Some 0) 1 pstate_init = Some st)
    by (vm_compute; reflexivity).
  assert (H3 : post_result flaky_exchange demo_client "user_transactions" (page_params st)
               = Some (inl e)) by (vm_compute; reflexivity).
  split; [exact H1|]; split; [exact H2|]; split; [exact H3|].
  exact (proj1 (listing_fails_on_any_page demo_rt flaky_exchange demo_client)
           JUndefined (Some 0) 1%nat st e 3%nat H1 H2 H3 ltac:(lia)).
Defined.

(* ------------------------------------------------------------------ *)
(** ** Response interpretation, normalisers and endpoints *)

Lemma request_insufficient_funds_witness :
  _request insufficient_funds_response
    = Some (inl (constructError sell_message INSUFFICIENT_FUNDS None))
  /\ exists m, In m [JStr sell_message] /\
    (Regex.test Regex.REGEX_PATTERN_BUY_ERROR_INSUFFICIENT_FUNDS (js_to_string m)
     || Regex.test Regex.REGEX_PATTERN_SELL_ERROR_INSUFFICIENT_FUNDS (js_to_string m)) = true /\
    _request insufficient_funds_response
    = Some (inl (constructError (js_to_string m) INSUFFICIENT_FUNDS None)).
Proof.
  split; [vm_compute; reflexivity|].
  apply (request_insufficient_funds insufficient_funds_response insufficient_funds_body
           (JObj [("__all__", JArr [JStr sell_message])]) [JStr sell_message]);
    try reflexivity.
  exists (JStr sell_message); split; [left; reflexivity | vm_compute; reflexivity].
Defined.

(** C6: the transaction normaliser fills its single amount/currency pair
    from the USD amount, with currency "USD", when the BTC amount parses to
    exactly zero, and from the BTC amount, with currency "BTC", otherwise. *)
Theorem constructTransactionObject_currency (rt : runtime) (currentTx : jsval)
    (tx : Transaction.t) :
  constructTransactionObject rt currentTx = Some tx ->
  exists btc usd,
    prop "btc" currentTx = Some btc /\ prop "usd" currentTx = Some usd /\
    if num_is_zero (parseFloat rt (js_to_string btc))
    then Transaction.currency tx = "USD"
         /\ Transaction.amount tx = toSmallestSubunit rt (JNum (parseFloat rt (js_to_string usd))) "USD"
    else Transaction.currency tx = "BTC"
         /\ Transaction.amount tx = toSmallestSubunit rt (JNum (parseFloat rt (js_to_string btc))) "BTC".
Proof.
  unfold constructTransactionObject, obind.
  destruct (prop "id" currentTx); [|discriminate].
  destruct (prop "datetime" currentTx) as [dt|]; [|discriminate].
  destruct (utcISOString rt (js_to_string dt)); [|discriminate].
  destruct (prop "type" currentTx); [|discriminate].
  destruct (prop "btc" currentTx) as [btc|]; [|discriminate].
  destruct (prop "usd" currentTx) as [usd|]; [|discriminate].
  intros H; exists btc, usd; split; [reflexivity|]; split; [reflexivity|].
  destruct (num_is_zero (parseFloat rt (js_to_string btc))); injection H as <-; auto.
Qed.

Lemma constructTransactionObject_currency_witness :
  let tx := {| Transaction.externalId := "3"; Transaction.timestamp := "3";
               Transaction.state := "completed"; Transaction.amount := 1;
               Transaction.currency := "BTC"; Transaction.type := "deposit";
               Transaction.raw := demo_tx 3 |} in
  constructTransactionObject demo_rt (demo_tx 3) = Some tx
  /\ exists btc usd,
    prop "btc" (demo_tx 3) = Some btc /\ prop "usd" (demo_tx 3) = Some usd /\
    if num_is_zero (parseFloat demo_rt (js_to_string btc))
    then Transaction.currency tx = "USD"
         /\ Transaction.amount tx
            = toSmallestSubunit demo_rt (JNum (parseFloat demo_rt (js_to_string usd))) "USD"
    else Transaction.currency tx = "BTC"
         /\ Transaction.amount tx
            = toSmallestSubunit demo_rt (JNum (parseFloat demo_rt (js_to_string btc))) "BTC".
Proof.
  intros tx.
  assert (H : constructTransactionObject demo_rt (demo_tx 3) = Some tx)
    by (vm_compute; reflexivity).
  split; [exact H|].
  exact (constructTransactionObject_currency demo_rt (demo_tx 3) tx H).
Defined.

(** C7 fails in the code: a zero limit price passes validation and
    [placeTrade] issues the order request. *)
Theorem placeTrade_zero_price_requests :
  exists k, placeTrade demo_rt demo_client (JNum "100000000") (JNum "0") "BTC" "USD"
            = Net POST "buy" [("amount", JNum "100000000"); ("price", JNum "0")] k.
Proof. eexists; reflexivity. Qed.

(** C8 fails in the code: without an API key, [getBalance] (like every
    authenticated call) hands its caller a bare string, which carries no
    error code. *)
Theorem missing_credentials_error_has_no_code :
  getBalance demo_rt keyless_client
    = Throw (ErrorString "Must provide key, secret and client ID to make this API request.")
  /\ placeTrade demo_rt keyless_client (JNum "100000000") (JNum "30000") "BTC" "USD"
     = Throw (ErrorString "Must provide key, secret and client ID to make this API request.")
  /\ err_code (ErrorString "Must provide key, secret and client ID to make this API request.")
     = None.
Proof.
  repeat split.
Qed.

(** C9: a currency pair that is not BTC/USD up to letter case makes
    [getTicker], [getOrderBook] and [placeTrade] fail with a
    [MODULE_ERROR] validation error, without any request. *)
Theorem unsupported_pair_rejected (rt : runtime) (self : Bitstamp)
    (baseCurrency quoteCurrency : string) :
  toUpperCase baseCurrency <> "BTC" \/ toUpperCase quoteCurrency <> "USD" ->
  (exists msg, getTicker rt self baseCurrency quoteCurrency
               = Throw (constructError msg MODULE_ERROR None))
  /\ (exists msg, getOrderBook rt self baseCurrency quoteCurrency
                  = Throw (constructError msg MODULE_ERROR None))
  /\ (forall baseAmount limitPrice,
        exists msg, placeTrade rt self baseAmount limitPrice baseCurrency quoteCurrency
                    = Throw (constructError msg MODULE_ERROR None)).
Proof.
  intros H.
  assert (Hb : (negb (String.eqb (toUpperCase baseCurrency) "BTC")
                || negb (String.eqb (toUpperCase quoteCurrency) "USD")) = true).
  { destruct H as [H|H]; apply String.eqb_neq in H; rewrite H;
      [reflexivity | apply orb_true_r]. }
  unfold getTicker, getOrderBook, placeTrade; cbv zeta; rewrite Hb.
  repeat split; eauto.
Qed.

Lemma unsupported_pair_rejected_witness :
  (toUpperCase "eth" <> "BTC" \/ toUpperCase "usd" <> "USD")
  /\ (exists msg, getTicker demo_rt demo_client "eth" "usd"
                  = Throw (constructError msg MODULE_ERROR None))
  /\ (exists msg, getOrderBook demo_rt demo_client "eth" "usd"
                  = Throw (constructError msg MODULE_ERROR None))
  /\ (forall baseAmount limitPrice,
        exists msg, placeTrade demo_rt demo_client baseAmount limitPrice "eth" "usd"
                    = Throw (constructError msg MODULE_ERROR None)).
Proof.
  assert (H : toUpperCase "eth" <> "BTC" \/ toUpperCase "usd" <> "USD")
    by (left; discriminate).
  split; [exact H|].
  exact (unsupported_pair_rejected demo_rt demo_client "eth" "usd" H).
Defined.

(** Case analysis on every [match] of the goal. *)
Ltac split_matches_in H :=
  repeat match type of H with
         | context [match ?x with _ => _ end] =>
             lazymatch type of x with
             | io _ => fail
             | _ => destruct x; try discriminate H
             end
         end.

(** C10: currency codes are upper-cased before the pair check: codes equal
    to BTC and USD up to letter case behave exactly as "BTC" and "USD",
    pass validation, lead [getTicker] and [getOrderBook] to their request,
    and the results carry the upper-case codes. *)
Theorem pair_check_case_insensitive (rt : runtime) (self : Bitstamp)
    (baseCurrency quoteCurrency : string) :
  toUpperCase baseCurrency = "BTC" ->
  toUpperCase quoteCurrency = "USD" ->
  getTicker rt self baseCurrency quoteCurrency = getTicker rt self "BTC" "USD"
  /\ getOrderBook rt self baseCurrency quoteCurrency = getOrderBook rt self "BTC" "USD"
  /\ (forall baseAmount limitPrice,
        placeTrade rt self baseAmount limitPrice baseCurrency quoteCurrency
        = placeTrade rt self baseAmount limitPrice "BTC" "USD")
  /\ (exists k, getTicker rt self baseCurrency quoteCurrency = Net GET "ticker" [] k)
  /\ (exists k, getOrderBook rt self baseCurrency quoteCurrency = Net GET "order_book" [] k)
  /\ (forall t ticker, respond (getTicker rt self baseCurrency quoteCurrency) t = Ret ticker ->
        Ticker.baseCurrency ticker = "BTC" /\ Ticker.quoteCurrency ticker = "USD")
  /\ (forall t book, respond (getOrderBook rt self baseCurrency quoteCurrency) t = Ret book ->
        OrderBook.baseCurrency book = "BTC" /\ OrderBook.quoteCurrency book = "USD")
  /\ (forall baseAmount limitPrice t trade,
        respond (placeTrade rt self baseAmount limitPrice baseCurrency quoteCurrency) t
        = Ret trade ->
        PlacedTrade.baseCurrency trade = "BTC" /\ PlacedTrade.quoteCurrency trade = "USD").
Proof.
  intros Hb Hq.
  assert (Et : getTicker rt self baseCurrency quoteCurrency = getTicker rt self "BTC" "USD")
    by (unfold getTicker; cbv zeta; rewrite Hb, Hq; reflexivity).
  assert (Eo : getOrderBook rt self baseCurrency quoteCurrency
               = getOrderBook rt self "BTC" "USD")
    by (unfold getOrderBook; cbv zeta; rewrite Hb, Hq; reflexivity).
  assert (Ep : forall baseAmount limitPrice,
             placeTrade rt self baseAmount limitPrice baseCurrency quoteCurrency
             = placeTrade rt self baseAmount limitPrice "BTC" "USD")
    by (intros; unfold placeTrade; cbv zeta; rewrite Hb, Hq; reflexivity).
  split; [exact Et|]; split; [exact Eo|]; split; [exact Ep|].
  split; [unfold getTicker; cbv zeta; rewrite Hb, Hq; eexists; reflexivity|].
  split; [unfold getOrderBook; cbv zeta; rewrite Hb, Hq; eexists; reflexivity|].
  split; [|split].
  - intros t ticker H; unfold getTicker, _get, respond, interpreted in H; cbv zeta in H;
    rewrite Hb, Hq in H; cbn in H; split_matches_in H.
    injection H as <-; split; reflexivity.
  - intros t book H; unfold getOrderBook, _get, respond, interpreted in H; cbv zeta in H;
    rewrite Hb, Hq in H; cbn in H; split_matches_in H.
    injection H as <-; split; reflexivity.
  - intros baseAmount limitPrice t trade H.
    unfold placeTrade, _post, respond, interpreted in H; cbv zeta in H;
    rewrite Hb, Hq in H; cbn in H; split_matches_in H;
      injection H as <-; split; reflexivity.
Qed.

Lemma pair_check_case_insensitive_witness :
  toUpperCase "btc" = "BTC" /\ toUpperCase "uSd" = "USD"
  /\ getTicker demo_rt demo_client "btc" "uSd" = getTicker demo_rt demo_client "BTC" "USD".
Proof.
  assert (Hb : toUpperCase "btc" = "BTC") by reflexivity.
  assert (Hq : toUpperCase "uSd" = "USD") by reflexivity.
  split; [exact Hb|]; split; [exact Hq|].
  exact (proj1 (pair_check_case_insensitive demo_rt demo_client "btc" "uSd" Hb Hq)).
Defined.

Lemma map_opt_obind {A B C} (g : A -> option B) (f : B -> C) (l : list A) :
  map_opt (fun x => obind (g x) (fun b => Some (f b))) l
  = obind (map_opt g l) (fun bs => Some (map f bs)).
Proof.
  induction l as [|x l IH]; [reflexivity|]; cbn.
  destruct (g x); cbn; [|reflexivity].
  rewrite IH; destruct (map_opt g l); reflexivity.
Qed.

Lemma sum_negated_lt0 (c : jsval -> Z) (l : list jsval) :
  Forall (fun b => 0 <= c b) l -> Exists (fun b => 0 < c b) l ->
  sum (map (fun b => - c b) l) < 0.
Proof.
  unfold sum; intros Hall Hex; induction Hall as [|x l Hx Hall IH]; [inversion Hex|]; cbn.
  assert (Hnp : fold_right Z.add 0 (map (fun b => - c b) l) <= 0).
  { clear IH Hex; induction Hall as [|y l Hy _ IH']; cbn; lia. }
  inversion Hex as [? ? Hlt|? ? Hex']; subst; [lia|].
  specialize (IH Hex'); lia.
Qed.

Lemma find_app_r {A} (f : A -> bool) (l1 l2 : list A) :
  find f (l1 ++ l2)%list = match find f l1 with Some x => Some x | None => find f l2 end.
Proof.
  induction l1 as [|x l1 IH]; [reflexivity|]; cbn.
  destruct (f x); [reflexivity|exact IH].
Qed.

Lemma defaults_id_prop (res id : jsval) (k : string) :
  k <> "id" -> prop k (defaults_id res id) = prop k res.
Proof.
  intros Hk; destruct res as [| | | | | |fs]; try reflexivity.
  assert (Happ : prop k (JObj (fs ++ [("id", id)])%list) = prop k (JObj fs)).
  { unfold prop; rewrite find_app_r.
    destruct (find (fun kv => String.eqb (fst kv) k) fs); [reflexivity|].
    cbn [find fst]; apply String.eqb_neq in Hk; rewrite String.eqb_sym, Hk; reflexivity. }
  unfold defaults_id; destruct (prop "id" (JObj fs)) as [[]|]; auto.
Qed.

(** C5: an order returned by [getTrade] sums the converted amounts of all
    its fills; base amounts are negated for a sell order and quote amounts
    for a buy order (so, with non-negative fills not all zero, a sell has a
    negative base amount and a buy a negative quote amount); the state is
    "closed" exactly when the reported status lower-cases to "finished". *)
Theorem getTrade_normalised (rt : runtime)
    (net : http_method -> string -> list (string * jsval) -> transport_result)
    (self : Bitstamp) (trade : jsval) (order : Order.t) :
  run net (getTrade rt self trade) = Ret order ->
  exists orderType id res status fills btcs usds fees,
    obind (prop "raw" trade) (prop "orderType") = Some orderType
    /\ (loose_eq_str orderType TYPE_SELL_ORDER || loose_eq_str orderType TYPE_BUY_ORDER) = true
    /\ obind (prop "raw" trade) (prop "id") = Some id
    /\ post_result net self "order_status" [("id", id)] = Some (inr res)
    /\ prop "status" res = Some (JStr status)
    /\ prop "transactions" res = Some (JArr fills)
    /\ map_opt (prop "btc") fills = Some btcs
    /\ map_opt (prop "usd") fills = Some usds
    /\ map_opt (prop "fee") fills = Some fees
    /\ Order.baseAmount order
       = sum (map (fun b => if loose_eq_str orderType TYPE_SELL_ORDER
                            then - toSmallestSubunit rt b "BTC"
                            else toSmallestSubunit rt b "BTC") btcs)
    /\ Order.quoteAmount order
       = sum (map (fun u => if loose_eq_str orderType TYPE_BUY_ORDER
                            then - toSmallestSubunit rt u "USD"
                            else toSmallestSubunit rt u "USD") usds)
    /\ Order.feeAmount order = sum (map (fun f => toSmallestSubunit rt f "USD") fees)
    /\ Order.state order
       = (if String.eqb (toLowerCase status) "finished" then "closed" else "open")
    /\ (loose_eq_str orderType TYPE_SELL_ORDER = true ->
        Forall (fun b => 0 <= toSmallestSubunit rt b "BTC") btcs ->
        Exists (fun b => 0 < toSmallestSubunit rt b "BTC") btcs ->
        Order.baseAmount order < 0)
    /\ (loose_eq_str orderType TYPE_BUY_ORDER = true ->
        Forall (fun u => 0 <= toSmallestSubunit rt u "USD") usds ->
        Exists (fun u => 0 < toSmallestSubunit rt u "USD") usds ->
        Order.quoteAmount order < 0).
Proof.
  unfold getTrade.
  destruct (negb (truthy trade)); [discriminate|].
  destruct (obind (prop "raw" trade) (prop "orderType")) as [orderType|] eqn:Hot;
    [|discriminate].
  destruct (obind (prop "raw" trade) (prop "id")) as [id|] eqn:Hid; [|discriminate].
  destruct (negb (loose_eq_str orderType TYPE_SELL_ORDER)
            && negb (loose_eq_str orderType TYPE_BUY_ORDER)) eqn:Hchk; [discriminate|].
  rewrite run_post.
  destruct (post_result net self "order_status" [("id", id)]) as [[err|res]|] eqn:Hpost;
    try discriminate.
  cbn [run]; unfold orderOfStatus.
  rewrite !defaults_id_prop by discriminate.
  destruct (toString id) as [externalId|]; [|discriminate]; cbn [obind].
  destruct (prop "status" res) as [st|] eqn:Hst; [|discriminate]; cbn [obind].
  destruct st as [| | | |status| |]; try discriminate; cbn [as_string obind].
  destruct (prop "transactions" res) as [trs|] eqn:Htrs; [|discriminate]; cbn [obind].
  destruct trs as [| | | | |fills|]; try discriminate; cbn [as_array obind].
  rewrite (map_opt_obind (prop "btc")
             (fun btc => if loose_eq_str orderType TYPE_SELL_ORDER
                         then - toSmallestSubunit rt btc "BTC"
                         else toSmallestSubunit rt btc "BTC")).
  rewrite (map_opt_obind (prop "usd")
             (fun usd => if loose_eq_str orderType TYPE_BUY_ORDER
                         then - toSmallestSubunit rt usd "USD"
                         else toSmallestSubunit rt usd "USD")).
  rewrite (map_opt_obind (prop "fee") (fun fee => toSmallestSubunit rt fee "USD")).
  destruct (map_opt (prop "btc") fills) as [btcs|] eqn:Hb; [|discriminate]; cbn [obind].
  destruct (map_opt (prop "usd") fills) as [usds|] eqn:Hu; [|discriminate]; cbn [obind].
  destruct (map_opt (prop "fee") fills) as [fees|] eqn:Hf; [|discriminate]; cbn [obind].
  intros H; injection H as <-.
  exists orderType, id, res, status, fills, btcs, usds, fees; cbn.
  repeat split; auto.
  - destruct (loose_eq_str orderType TYPE_SELL_ORDER); [reflexivity|].
    cbn in Hchk; apply negb_false_iff in Hchk; exact Hchk.
  - intros Hs Hall Hex; rewrite Hs.
    exact (sum_negated_lt0 (fun b => toSmallestSubunit rt b "BTC") btcs Hall Hex).
  - intros Hbuy Hall Hex; rewrite Hbuy.
    exact (sum_negated_lt0 (fun u => toSmallestSubunit rt u "USD") usds Hall Hex).
Qed.

Lemma getTrade_normalised_witness :
  let order := {| Order.externalId := "7"; Order.type := "limit"; Order.state := "closed";
                  Order.baseAmount := -100; Order.quoteAmount := 3000;
                  Order.baseCurrency := "BTC"; Order.quoteCurrency := "USD";
                  Order.feeAmount := 6; Order.feeCurrency := "USD";
                  Order.raw := JObj [("status", JStr "FINISHED");
                                     ("transactions", JArr [demo_fill; demo_fill]);
                                     ("id", JNum "7")] |} in
  run order_exchange (getTrade demo_rt demo_client demo_trade) = Ret order
  /\ exists orderType id res status fills btcs usds fees,
    obind (prop "raw" demo_trade) (prop "orderType") = Some orderType
    /\ (loose_eq_str orderType TYPE_SELL_ORDER || loose_eq_str orderType TYPE_BUY_ORDER) = true
    /\ obind (prop "raw" demo_trade) (prop "id") = Some id
    /\ post_result order_exchange demo_client "order_status" [("id", id)] = Some (inr res)
    /\ prop "status" res = Some (JStr status)
    /\ prop "transactions" res = Some (JArr fills)
    /\ map_opt (prop "btc") fills = Some btcs
    /\ map_opt (prop "usd") fills = Some usds
    /\ map_opt (prop "fee") fills = Some fees
    /\ Order.baseAmount order
       = sum (map (fun b => if loose_eq_str orderType TYPE_SELL_ORDER
                            then - toSmallestSubunit demo_rt b "BTC"
                            else toSmallestSubunit demo_rt b "BTC") btcs)
    /\ Order.quoteAmount order
       = sum (map (fun u => if loose_eq_str orderType TYPE_BUY_ORDER
                            then - toSmallestSubunit demo_rt u "USD"
                            else toSmallestSubunit demo_rt u "USD") usds)
    /\ Order.feeAmount order = sum (map (fun f => toSmallestSubunit demo_rt f "USD") fees)
    /\ Order.state order
       = (if String.eqb (toLowerCase status) "finished" then "closed" else "open")
    /\ (loose_eq_str orderType TYPE_SELL_ORDER = true ->
        Forall (fun b => 0 <= toSmallestSubunit demo_rt b "BTC") btcs ->
        Exists (fun b => 0 < toSmallestSubunit demo_rt b "BTC") btcs ->
        Order.baseAmount order < 0)
    /\ (loose_eq_str orderType TYPE_BUY_ORDER = true ->
        Forall (fun u => 0 <= toSmallestSubunit demo_rt u "USD") usds ->
        Exists (fun u => 0 < toSmallestSubunit demo_rt u "USD") usds ->
        Order.quoteAmount order < 0).
Proof.
  intros order.
  assert (H : run order_exchange (getTrade demo_rt demo_client demo_trade) = Ret order)
    by (vm_compute; reflexivity).
  split; [exact H|].
  exact (getTrade_normalised demo_rt order_exchange demo_client demo_trade order H).
Defined.

(* ------------------------------------------------------------------ *)
(** ** Further properties of the module *)

(** Every error [_request] reports is an [Error] object with a code. *)
(** Every error that the response interpreter [_request] hands to its
    callback is an [Error] object built by [constructError], so it carries
    a code. *)
Theorem _request_errors_have_code (t : transport_result) (e : err_value) :
  _request t = Some (inl e) -> exists msg code cause, e = ErrorObj msg (Some code) cause.
Proof.
  unfold _request, body_error, constructError; cbv zeta.
  intros H; split_matches_in H; injection H as <-; eauto.
Qed.

Lemma _request_errors_have_code_witness :
  _request insufficient_funds_response
    = Some (inl (constructError sell_message INSUFFICIENT_FUNDS None))
  /\ exists msg code cause,
       constructError sell_message INSUFFICIENT_FUNDS None = ErrorObj msg (Some code) cause.
Proof.
  assert (H : _request insufficient_funds_response
              = Some (inl (constructError sell_message INSUFFICIENT_FUNDS None)))
    by (vm_compute; reflexivity).
  split; [exact H|].
  exact (_request_errors_have_code insufficient_funds_response _ H).
Defined.


(** [_request] checks failures in a fixed order: a transport error or an
    empty body gives [EXCHANGE_SERVER_ERROR] with the transport error as
    cause, whatever the rest of the response; otherwise a truthy
    [res.error] gives [EXCHANGE_SERVER_ERROR] with it as cause; otherwise a
    body that does not parse gives [MODULE_ERROR] with the parse exception
    as cause. *)
Theorem _request_failure_order (t : transport_result) :
  ((tr_err t <> None \/ tr_body t = NoBody) ->
   _request t = Some (inl (constructError
     "There is an error in the response from the Bitstamp service..."
     EXCHANGE_SERVER_ERROR (option_map CauseError (tr_err t)))))
  /\ (tr_err t = None -> tr_body t <> NoBody -> truthy (tr_res_error t) = true ->
      _request t = Some (inl (constructError "The exchange service responded with an error..."
                               EXCHANGE_SERVER_ERROR (Some (CauseValue (tr_res_error t))))))
  /\ (forall exc, tr_err t = None -> truthy (tr_res_error t) = false ->
      tr_body t = Unparsable exc ->
      _request t = Some (inl (constructError "Could not understand response from exchange server."
                               MODULE_ERROR (Some (CauseError exc))))).
Proof.
  unfold _request; split; [|split].
  - intros [H|H].
    + destruct (tr_err t); [reflexivity|congruence].
    + rewrite H, orb_true_r; reflexivity.
  - intros He Hb Hr; rewrite He, Hr; destruct (tr_body t); [congruence|reflexivity..].
  - intros exc He Hr Hb; rewrite He, Hr, Hb; reflexivity.
Qed.

Lemma _request_failure_order_witness :
  _request {| tr_err := Some timeout_exc; tr_res_error := JUndefined;
              tr_body := Parsed insufficient_funds_body |}
  = Some (inl (constructError "There is an error in the response from the Bitstamp service..."
                 EXCHANGE_SERVER_ERROR (Some (CauseError timeout_exc))))
  /\ _request {| tr_err := None; tr_res_error := JStr "503";
                 tr_body := Parsed insufficient_funds_body |}
     = Some (inl (constructError "The exchange service responded with an error..."
                    EXCHANGE_SERVER_ERROR (Some (CauseValue (JStr "503")))))
  /\ _request {| tr_err := None; tr_res_error := JUndefined;
                 tr_body := Unparsable timeout_exc |}
     = Some (inl (constructError "Could not understand response from exchange server."
                    MODULE_ERROR (Some (CauseError timeout_exc)))).
Proof.
  split; [|split].
  - apply (proj1 (_request_failure_order
                    {| tr_err := Some timeout_exc; tr_res_error := JUndefined;
                       tr_body := Parsed insufficient_funds_body |})).
    left; cbn; discriminate.
  - apply (proj1 (proj2 (_request_failure_order
                    {| tr_err := None; tr_res_error := JStr "503";
                       tr_body := Parsed insufficient_funds_body |}))).
    + reflexivity.
    + cbn; discriminate.
    + reflexivity.
  - apply (proj2 (proj2 (_request_failure_order
                    {| tr_err := None; tr_res_error := JUndefined;
                       tr_body := Unparsable timeout_exc |}))); reflexivity.
Defined.


(** [_request] passes [data] on as a success exactly when there is no
    transport error, [res.error] is falsy, the body parses to [data], and
    [data.error] is falsy; the parsed body is passed unchanged. *)
Theorem _request_success_iff (t : transport_result) (data : jsval) :
  _request t = Some (inr data) <->
  tr_err t = None /\ truthy (tr_res_error t) = false /\ tr_body t = Parsed data
  /\ exists derr, prop "error" data = Some derr /\ truthy derr = false.
Proof.
  unfold _request; split.
  - destruct (tr_err t); [discriminate|]; destruct (tr_body t) as [|exc|d]; try discriminate;
      cbn [orb]; destruct (truthy (tr_res_error t)); try discriminate.
    destruct (prop "error" d) as [derr|] eqn:Hd; [|discriminate].
    destruct (truthy derr) eqn:Ht; [discriminate|].
    intros H; injection H as <-; eauto 7.
  - intros (He & Hr & Hb & derr & Hd & Ht); rewrite He, Hr, Hb; cbn; rewrite Hd, Ht; reflexivity.
Qed.

Lemma _request_success_iff_witness :
  _request (ok_response (JObj [("id", JNum "5")])) = Some (inr (JObj [("id", JNum "5")])).
Proof.
  apply (proj2 (_request_success_iff (ok_response (JObj [("id", JNum "5")]))
                  (JObj [("id", JNum "5")]))).
  split; [reflexivity|]; split; [reflexivity|]; split; [reflexivity|].
  exists JUndefined; split; reflexivity.
Defined.


(** [_request] throws (a TypeError reading [data.error]) exactly when
    there is no transport error, [res.error] is falsy and the body parses
    to [null] (or, in the model, to [undefined]). *)
Theorem _request_crash_iff (t : transport_result) :
  _request t = None <->
  tr_err t = None /\ truthy (tr_res_error t) = false
  /\ (tr_body t = Parsed JNull \/ tr_body t = Parsed JUndefined).
Proof.
  unfold _request; split.
  - intros H; destruct (tr_err t); [discriminate|]; destruct (tr_body t) as [|exc|d];
      try discriminate; cbn [orb] in H; destruct (truthy (tr_res_error t)); try discriminate.
    destruct d; cbn in H; try discriminate; try (destruct (truthy _); discriminate); auto.
  - intros (He & Hr & [Hb|Hb]); rewrite He, Hr, Hb; reflexivity.
Qed.

Lemma _request_crash_iff_witness : _request (ok_response JNull) = None.
Proof.
  apply (proj2 (_request_crash_iff (ok_response JNull))).
  split; [reflexivity|]; split; [reflexivity|]; left; reflexivity.
Defined.


(** When [data.error.__all__] is a list, the body error is an
    insufficient-funds error carrying the first message matching the
    buy-side pattern, else the first matching the sell-side pattern, else
    the generic [EXCHANGE_SERVER_ERROR] whose cause is [data.error]; a
    falsy [__all__] always gives that generic error. *)
Theorem body_error_classification (derr : jsval) :
  (forall msgs, prop "__all__" derr = Some (JArr msgs) ->
   body_error derr =
   match find (fun m => Regex.test Regex.REGEX_PATTERN_BUY_ERROR_INSUFFICIENT_FUNDS
                          (js_to_string m)) msgs with
   | Some m => constructError (js_to_string m) INSUFFICIENT_FUNDS None
   | None =>
       match find (fun m => Regex.test Regex.REGEX_PATTERN_SELL_ERROR_INSUFFICIENT_FUNDS
                              (js_to_string m)) msgs with
       | Some m => constructError (js_to_string m) INSUFFICIENT_FUNDS None
       | None => constructError
                   "There is an error in the body of the response from the exchange service..."
                   EXCHANGE_SERVER_ERROR (Some (CauseValue derr))
       end
   end)
  /\ (forall all, prop "__all__" derr = Some all -> truthy all = false ->
      body_error derr = constructError
        "There is an error in the body of the response from the exchange service..."
        EXCHANGE_SERVER_ERROR (Some (CauseValue derr))).
Proof.
  split.
  - intros msgs Hall; unfold body_error; rewrite Hall; cbn_keep.
    destruct (find (fun m => Regex.test Regex.REGEX_PATTERN_BUY_ERROR_INSUFFICIENT_FUNDS
                               (js_to_string m)) msgs) as [mb|] eqn:Hb.
    + apply find_matching_some in Hb as [-> [_ Ht]].
      assert (Htr : truthy mb = true) by (apply pattern_match_truthy; rewrite Ht; reflexivity).
      unfold js_or; rewrite Htr, Htr; reflexivity.
    + assert (Hnb : find_matching Regex.REGEX_PATTERN_BUY_ERROR_INSUFFICIENT_FUNDS (JArr msgs)
                    = JUndefined)
        by (unfold find_matching; cbn [collection_elems]; rewrite Hb; reflexivity).
      rewrite Hnb; unfold js_or; cbn [truthy].
      destruct (find (fun m => Regex.test Regex.REGEX_PATTERN_SELL_ERROR_INSUFFICIENT_FUNDS
                                 (js_to_string m)) msgs) as [ms|] eqn:Hs.
      * apply find_matching_some in Hs as [-> [_ Ht]].
        assert (Htr : truthy ms = true)
          by (apply pattern_match_truthy; rewrite Ht, orb_true_r; reflexivity).
        rewrite Htr; reflexivity.
      * assert (Hns : find_matching Regex.REGEX_PATTERN_SELL_ERROR_INSUFFICIENT_FUNDS (JArr msgs)
                      = JUndefined)
          by (unfold find_matching; cbn [collection_elems]; rewrite Hs; reflexivity).
        rewrite Hns; reflexivity.
  - intros all Hall Hf; unfold body_error; rewrite Hall, Hf; reflexivity.
Qed.

Lemma body_error_classification_witness :
  body_error (JObj [("__all__", JArr [JStr sell_message; JStr buy_message])])
  = constructError buy_message INSUFFICIENT_FUNDS None
  /\ body_error (JStr "Invalid nonce")
     = constructError "There is an error in the body of the response from the exchange service..."
         EXCHANGE_SERVER_ERROR (Some (CauseValue (JStr "Invalid nonce"))).
Proof.
  split.
  - rewrite (proj1 (body_error_classification
                      (JObj [("__all__", JArr [JStr sell_message; JStr buy_message])]))
               [JStr sell_message; JStr buy_message] eq_refl).
    lazy; reflexivity.
  - apply (proj2 (body_error_classification (JStr "Invalid nonce")) JUndefined); reflexivity.
Defined.


Lemma credentials_missing (self : Bitstamp) :
  (truthy (key self) && truthy (secret self) && truthy (clientId self)) = false ->
  (negb (truthy (key self)) || negb (truthy (secret self)) || negb (truthy (clientId self)))
  = true.
Proof.
  destruct (truthy (key self)), (truthy (secret self)), (truthy (clientId self));
    cbn; congruence.
Qed.


(** Without a key, secret or client ID, [listTransactions] and
    [listTrades] send no request and fail with the listing error
    ([MODULE_ERROR]) whose cause is the bare credentials string. *)
Theorem listings_without_credentials (rt : runtime) (fuel : nat) (self : Bitstamp)
    (latest : jsval) (bd : option Z) :
  (truthy (key self) && truthy (secret self) && truthy (clientId self)) = false ->
  (transactionsBoundary rt latest = Some bd ->
   listTransactions rt fuel self latest
   = Throw (listing_error
              (ErrorString "Must provide key, secret and client ID to make this API request.")))
  /\ (tradesBoundary rt latest = Some bd ->
      listTrades rt fuel self latest
      = Throw (listing_error
                 (ErrorString "Must provide key, secret and client ID to make this API request.")))
  /\ err_code (listing_error
       (ErrorString "Must provide key, secret and client ID to make this API request."))
     = Some MODULE_ERROR.
Proof.
  intros Hc; apply credentials_missing in Hc.
  split; [|split; [|reflexivity]]; intros Hbd.
  - unfold listTransactions; rewrite Hbd; unfold iterateRequestTxs.
    destruct fuel; cbn [doWhilst]; unfold _post; rewrite Hc; reflexivity.
  - unfold listTrades; rewrite Hbd; unfold iterateRequestTxs.
    destruct fuel; cbn [doWhilst]; unfold _post; rewrite Hc; reflexivity.
Qed.

Lemma listings_without_credentials_witness :
  listTransactions demo_rt 3%nat keyless_client JUndefined
  = Throw (listing_error
             (ErrorString "Must provide key, secret and client ID to make this API request.")).
Proof.
  exact (proj1 (listings_without_credentials demo_rt 3%nat keyless_client JUndefined (Some 0)
                  eq_refl) eq_refl).
Defined.


(** [getBalance], [getTicker], [getOrderBook], [getTrade] and
    [placeTrade] hand an error reported by [_request] to their caller
    unchanged, without wrapping it. *)
Theorem endpoints_pass_errors_through (rt : runtime) (self : Bitstamp)
    (t : transport_result) (e : err_value) :
  _request t = Some (inl e) ->
  (forall m a p k, getBalance rt self = Net m a p k -> k t = Throw e)
  /\ (forall bc qc m a p k, getTicker rt self bc qc = Net m a p k -> k t = Throw e)
  /\ (forall bc qc m a p k, getOrderBook rt self bc qc = Net m a p k -> k t = Throw e)
  /\ (forall trade m a p k, getTrade rt self trade = Net m a p k -> k t = Throw e)
  /\ (forall ba lp bc qc m a p k, placeTrade rt self ba lp bc qc = Net m a p k -> k t = Throw e).
Proof.
  intros He.
  repeat split; intros *;
    unfold getBalance, getTicker, getOrderBook, getTrade, placeTrade, _get, _post;
    cbv zeta; intros H; split_matches_in H;
    injection H as _ _ _ <-; unfold interpreted; rewrite He; reflexivity.
Qed.

Lemma endpoints_pass_errors_through_witness :
  exists k, getBalance demo_rt demo_client = Net POST "balance" [] k
  /\ k insufficient_funds_response = Throw (constructError sell_message INSUFFICIENT_FUNDS None).
Proof.
  assert (He : _request insufficient_funds_response
               = Some (inl (constructError sell_message INSUFFICIENT_FUNDS None)))
    by (vm_compute; reflexivity).
  eexists; split; [reflexivity|].
  exact (proj1 (endpoints_pass_errors_through demo_rt demo_client _ _ He) _ _ _ _ eq_refl).
Defined.


(** [getTrade] rejects a falsy trade and a trade whose [raw.orderType]
    is neither 'sell' nor 'buy' with a [MODULE_ERROR] before any request,
    and throws a TypeError when [trade.raw] is missing. *)
Theorem getTrade_validation (rt : runtime) (self : Bitstamp) (trade : jsval) :
  (truthy trade = false ->
   getTrade rt self trade
   = Throw (constructError "Trade object is a required parameter." MODULE_ERROR None))
  /\ (forall orderType, truthy trade = true ->
      obind (prop "raw" trade) (prop "orderType") = Some orderType ->
      loose_eq_str orderType TYPE_SELL_ORDER = false ->
      loose_eq_str orderType TYPE_BUY_ORDER = false ->
      getTrade rt self trade
      = Throw (constructError
          "Trade object must have a raw orderType parameter with value either 'sell' or 'buy'."
          MODULE_ERROR None))
  /\ (truthy trade = true -> obind (prop "raw" trade) (prop "orderType") = None ->
      getTrade rt self trade = Crash).
Proof.
  unfold getTrade; split; [|split].
  - intros H; rewrite H; reflexivity.
  - intros orderType Ht Ho Hs Hb; rewrite Ht, Ho; cbn [negb].
    destruct (prop "raw" trade) as [raw|]; [|discriminate]; cbn [obind] in *.
    destruct raw; cbn in Ho |- *; try discriminate; rewrite Hs, Hb; reflexivity.
  - intros Ht Ho; rewrite Ht, Ho; reflexivity.
Qed.

Lemma getTrade_validation_witness :
  getTrade demo_rt demo_client JNull
  = Throw (constructError "Trade object is a required parameter." MODULE_ERROR None)
  /\ getTrade demo_rt demo_client
       (JObj [("raw", JObj [("id", JNum "7"); ("orderType", JStr "limit")])])
     = Throw (constructError
         "Trade object must have a raw orderType parameter with value either 'sell' or 'buy'."
         MODULE_ERROR None)
  /\ getTrade demo_rt demo_client (JObj [("id", JNum "7")]) = Crash.
Proof.
  split; [|split].
  - exact (proj1 (getTrade_validation demo_rt demo_client JNull) eq_refl).
  - exact (proj1 (proj2 (getTrade_validation demo_rt demo_client
             (JObj [("raw", JObj [("id", JNum "7"); ("orderType", JStr "limit")])])))
             (JStr "limit") eq_refl eq_refl eq_refl eq_refl).
  - exact (proj2 (proj2 (getTrade_validation demo_rt demo_client (JObj [("id", JNum "7")])))
             eq_refl eq_refl).
Defined.





Lemma find_key_filter_same (k : string) (fs : list (string * jsval)) :
  find (fun kv => String.eqb (fst kv) k) (filter (fun kv => negb (String.eqb (fst kv) k)) fs)
  = None.
Proof.
  induction fs as [|[k' v] fs IH]; [reflexivity|]; cbn.
  destruct (String.eqb k' k) eqn:E; cbn; [exact IH|]; rewrite E; exact IH.
Qed.

Lemma find_key_filter_other (k k' : string) (fs : list (string * jsval)) :
  k' <> k ->
  find (fun kv => String.eqb (fst kv) k') (filter (fun kv => negb (String.eqb (fst kv) k)) fs)
  = find (fun kv => String.eqb (fst kv) k') fs.
Proof.
  intros Hne; induction fs as [|[j v] fs IH]; [reflexivity|]; cbn.
  destruct (String.eqb j k) eqn:E; cbn.
  - apply String.eqb_eq in E; subst j.
    apply String.eqb_neq in Hne; rewrite String.eqb_sym, Hne; exact IH.
  - destruct (String.eqb j k'); [reflexivity|exact IH].
Qed.

Lemma prop_extend (res v : jsval) (k k' : string) (fs : list (string * jsval)) :
  res = JObj fs ->
  prop k (extend res k v) = Some v
  /\ (k' <> k -> prop k' (extend res k v) = prop k' res).
Proof.
  intros ->; unfold extend, prop; split.
  - rewrite find_app_r, find_key_filter_same; cbn; rewrite String.eqb_refl; reflexivity.
  - intros Hne; rewrite find_app_r, find_key_filter_other by exact Hne.
    destruct (find (fun kv => String.eqb (fst kv) k') fs); [reflexivity|].
    cbn; apply String.eqb_neq in Hne; rewrite String.eqb_sym, Hne; reflexivity.
Qed.

(** A value whose [id] property converts to a string is an object. *)
Lemma prop_toString_obj (res : jsval) (s : string) :
  obind (prop "id" res) toString = Some s -> exists fs, res = JObj fs.
Proof. destruct res; cbn; try discriminate; eauto. Qed.

(** For the BTC/USD pair, [placeTrade] rejects a base amount that is not a
    number or is zero, and then a limit price that is not a number or is
    negative, with [MODULE_ERROR] errors and no request. *)
Theorem placeTrade_validation (rt : runtime) (self : Bitstamp) (baseAmount limitPrice : jsval) :
  ((forall b, baseAmount = JNum b -> num_is_zero b = true) ->
   placeTrade rt self baseAmount limitPrice "BTC" "USD"
   = Throw (constructError "The base amount must be a number." MODULE_ERROR None))
  /\ (forall b, baseAmount = JNum b -> num_is_zero b = false ->
      (forall p, limitPrice = JNum p -> num_lt_zero p = true) ->
      placeTrade rt self baseAmount limitPrice "BTC" "USD"
      = Throw (constructError "The limit price must be a positive number." MODULE_ERROR None)).
Proof.
  split.
  - intros Hb; unfold placeTrade; cbn -[constructError].
    destruct baseAmount as [| | | b | | |]; try reflexivity.
    rewrite (Hb b eq_refl); reflexivity.
  - intros b -> Hb Hp; unfold placeTrade; cbn -[constructError]; rewrite Hb.
    destruct limitPrice as [| | | p | | |]; try reflexivity.
    rewrite (Hp p eq_refl); reflexivity.
Qed.

Lemma placeTrade_validation_witness :
  placeTrade demo_rt demo_client (JNum "0") (JNum "30000") "BTC" "USD"
  = Throw (constructError "The base amount must be a number." MODULE_ERROR None)
  /\ placeTrade demo_rt demo_client (JNum "100") (JStr "30000") "BTC" "USD"
     = Throw (constructError "The limit price must be a positive number." MODULE_ERROR None).
Proof.
  split.
  - apply (proj1 (placeTrade_validation demo_rt demo_client (JNum "0") (JNum "30000"))).
    intros b Hb; injection Hb as <-; reflexivity.
  - apply (proj2 (placeTrade_validation demo_rt demo_client (JNum "100") (JStr "30000"))
             "100" eq_refl eq_refl).
    intros p Hp; discriminate.
Defined.





(** A trade returned by [placeTrade] passes the validation of
    [getTrade], which then requests [order_status] for the id of the
    placed order. *)
Theorem placed_trade_accepted_by_getTrade (rt : runtime) (self : Bitstamp)
    (baseAmount limitPrice : jsval) (baseCurrency quoteCurrency : string)
    (m : http_method) (action : string) (params : list (string * jsval))
    (k : transport_result -> io PlacedTrade.t) (t : transport_result) (trade : PlacedTrade.t) :
  placeTrade rt self baseAmount limitPrice baseCurrency quoteCurrency = Net m action params k ->
  k t = Ret trade ->
  exists id k', prop "id" (PlacedTrade.raw trade) = Some id
    /\ toString id = Some (PlacedTrade.externalId trade)
    /\ getTrade rt self (placed_trade_js trade) = Net POST "order_status" [("id", id)] k'.
Proof.
  intros Hpl Hk; revert Hpl; unfold placeTrade, _post; cbv zeta.
  destruct (negb (truthy (key self)) || negb (truthy (secret self))
            || negb (truthy (clientId self))) eqn:Hcred; intros Hpl.
  all: split_matches_in Hpl.
  all: injection Hpl as _ _ _ <-.
  all: unfold interpreted in Hk; destruct (_request t) as [[e|res]|]; try discriminate.
  all: destruct (obind (prop "id" res) toString) as [ext|] eqn:Hid; try discriminate.
  all: injection Hk as <-.
  all: destruct (prop_toString_obj res ext Hid) as [fs Hfs].
  all: match goal with
       | |- context [extend ?r "orderType" ?v] =>
           destruct (prop_extend r v "orderType" "id" fs Hfs) as [Hot Hoid]
       end.
  all: cbn [PlacedTrade.raw PlacedTrade.externalId].
  all: rewrite Hoid by discriminate.
  all: destruct (prop "id" res) as [id|] eqn:Hpid; [|discriminate]; cbn [obind] in Hid.
  all: exists id; eexists; split; [reflexivity|]; split; [exact Hid|].
  all: unfold getTrade, placed_trade_js; cbn -[extend].
  all: rewrite Hot, (Hoid ltac:(discriminate)); cbn.
  all: unfold _post; rewrite Hcred; reflexivity.
Qed.

Lemma placed_trade_accepted_by_getTrade_witness :
  exists k', getTrade demo_rt demo_client
               (placed_trade_js
                  {| PlacedTrade.externalId := "99"; PlacedTrade.type := "limit";
                     PlacedTrade.state := "open"; PlacedTrade.baseAmount := JNum "100";
                     PlacedTrade.baseCurrency := "BTC"; PlacedTrade.quoteCurrency := "USD";
                     PlacedTrade.limitPrice := JNum "5";
                     PlacedTrade.raw := JObj [("id", JNum "99"); ("orderType", JStr "buy")] |})
             = Net POST "order_status" [("id", JNum "99")] k'.
Proof.
  assert (Hk : match placeTrade demo_rt demo_client (JNum "100") (JNum "5") "BTC" "USD" with
               | Net _ _ _ k => k (ok_response (JObj [("id", JNum "99")]))
               | _ => Crash
               end
               = Ret {| PlacedTrade.externalId := "99"; PlacedTrade.type := "limit";
                        PlacedTrade.state := "open"; PlacedTrade.baseAmount := JNum "100";
                        PlacedTrade.baseCurrency := "BTC"; PlacedTrade.quoteCurrency := "USD";
                        PlacedTrade.limitPrice := JNum "5";
                        PlacedTrade.raw := JObj [("id", JNum "99"); ("orderType", JStr "buy")] |})
    by (vm_compute; reflexivity).
  destruct (placeTrade demo_rt demo_client (JNum "100") (JNum "5") "BTC" "USD")
    as [a|e| | |m act ps k] eqn:Hpl; try discriminate Hk.
  destruct (placed_trade_accepted_by_getTrade demo_rt demo_client (JNum "100") (JNum "5")
              "BTC" "USD" m act ps k _ _ Hpl Hk) as [id [k' [Hid [_ Hg]]]].
  cbn in Hid; injection Hid as <-.
  exists k'; exact Hg.
Defined.


Lemma map_opt_Forall2 {A B} (f : A -> option B) (l : list A) (ys : list B) :
  map_opt f l = Some ys -> Forall2 (fun x y => f x = Some y) l ys.
Proof.
  revert ys; induction l as [|x l IH]; intros ys H; cbn in H.
  - injection H as <-; constructor.
  - destruct (f x) as [y|] eqn:Hf; [|discriminate]; cbn in H.
    destruct (map_opt f l) as [ys'|] eqn:Hl; [|discriminate]; cbn in H.
    injection H as <-; constructor; auto.
Qed.

Lemma convertSide_converted (rt : runtime) (side : jsval) (entries : list OrderBook.entry) :
  convertSide rt side = Some entries -> converted_side rt side entries.
Proof.
  unfold convertSide, js_or; destruct (truthy side) eqn:Ht.
  - destruct side; cbn; try discriminate; intros H; right; eexists; split; [reflexivity|].
    apply map_opt_Forall2 in H; refine (Forall2_impl _ _ H).
    intros e x Hx; unfold convertRawEntry in Hx.
    destruct (index_at e 0) as [p|]; [|discriminate]; cbn in Hx.
    destruct (index_at e 1) as [a|]; [|discriminate]; cbn in Hx.
    injection Hx as <-; eauto 7.
  - cbn; intros H; injection H as <-; left; auto.
Qed.

(** Each side of the order book returned by [getOrderBook] has one entry
    per raw entry of [res.bids] (or [res.asks]), in the same order, with
    the price and the amount read from positions 0 and 1; a missing or
    falsy side becomes empty. *)
Theorem getOrderBook_sides (rt : runtime) (self : Bitstamp) (t : transport_result)
    (res : jsval) (book : OrderBook.t) :
  _request t = Some (inr res) ->
  respond (getOrderBook rt self "BTC" "USD") t = Ret book ->
  exists rawBids rawAsks, prop "bids" res = Some rawBids /\ prop "asks" res = Some rawAsks
  /\ converted_side rt rawBids (OrderBook.bids book)
  /\ converted_side rt rawAsks (OrderBook.asks book).
Proof.
  intros Hreq H.
  assert (Hb : toUpperCase "BTC" = "BTC") by reflexivity.
  assert (Hq : toUpperCase "USD" = "USD") by reflexivity.
  unfold getOrderBook in H; cbv zeta in H; rewrite Hb, Hq in H; clear Hb Hq.
  unfold _get, respond, interpreted in H; cbn -[convertSide _request] in H.
  rewrite Hreq in H.
  destruct (prop "bids" res) as [rb|] eqn:Hb; cbn [obind] in H; [|discriminate H].
  destruct (prop "asks" res) as [ra|] eqn:Ha; cbn [obind] in H;
    [|destruct (convertSide rt rb); discriminate H].
  destruct (convertSide rt rb) as [bids|] eqn:Hcb; [|discriminate].
  destruct (convertSide rt ra) as [asks|] eqn:Hca; [|discriminate].
  injection H as <-; exists rb, ra; cbn.
  repeat split; auto using convertSide_converted.
Qed.

Lemma getOrderBook_sides_witness :
  let t := ok_response (JObj [("bids", JArr [JArr [JStr "450.5"; JStr "3"]])]) in
  let book := {| OrderBook.baseCurrency := "BTC"; OrderBook.quoteCurrency := "USD";
                 OrderBook.bids := [{| OrderBook.price := "450.5"; OrderBook.baseAmount := 3 |}];
                 OrderBook.asks := [] |} in
  respond (getOrderBook demo_rt demo_client "BTC" "USD") t = Ret book
  /\ exists rawBids rawAsks,
       prop "bids" (JObj [("bids", JArr [JArr [JStr "450.5"; JStr "3"]])]) = Some rawBids
       /\ prop "asks" (JObj [("bids", JArr [JArr [JStr "450.5"; JStr "3"]])]) = Some rawAsks
       /\ converted_side demo_rt rawBids (OrderBook.bids book)
       /\ converted_side demo_rt rawAsks (OrderBook.asks book).
Proof.
  intros t book.
  assert (Hr : _request t = Some (inr (JObj [("bids", JArr [JArr [JStr "450.5"; JStr "3"]])])))
    by (vm_compute; reflexivity).
  assert (Hb : respond (getOrderBook demo_rt demo_client "BTC" "USD") t = Ret book)
    by (vm_compute; reflexivity).
  split; [exact Hb|].
  exact (getOrderBook_sides demo_rt demo_client t _ book Hr Hb).
Defined.


Lemma every_scan_kept (rt : runtime) (bd : option Z) :
  forall res pushed broke, every_scan rt bd res = Some (pushed, broke) ->
  Forall (fun tx => not_older rt bd tx = true) pushed.
Proof.
  induction res as [|tx res IH]; intros pushed broke H; cbn in H.
  - injection H as <- _; constructor.
  - destruct (prop "datetime" tx) as [d|] eqn:Hd; [|discriminate].
    destruct (date_gt bd (new_Date rt d)) eqn:Hg.
    + injection H as <- _; constructor.
    + destruct (every_scan rt bd res) as [[p b]|] eqn:Hs; [|discriminate].
      injection H as <- _; constructor; [|eauto].
      unfold not_older; rewrite Hd, Hg; reflexivity.
Qed.

Lemma every_scan_all_kept (rt : runtime) (bd : option Z) (page : list jsval) :
  Forall (fun tx => not_older rt bd tx = true) page -> every_scan rt bd page = Some (page, false).
Proof.
  induction 1 as [|tx page Htx _ IH]; [reflexivity|]; cbn.
  unfold not_older in Htx; destruct (prop "datetime" tx) as [d|]; [|discriminate].
  apply negb_true_iff in Htx; rewrite Htx, IH; reflexivity.
Qed.

Lemma post_step_inr (rt : runtime) (bd : option Z) (st st' : pstate) (r : err_value + jsval) :
  post_step rt bd st r = Some (inr st') ->
  offset st' = offset st + responseLength
  /\ exists pushed, transactionsAll st' = (transactionsAll st ++ pushed)%list
     /\ Forall (fun tx => not_older rt bd tx = true) pushed.
Proof.
  unfold post_step; destruct r as [e|[| | | | |res|]]; try discriminate.
  destruct (every_scan rt bd res) as [[pushed broke]|] eqn:Hs; [|discriminate].
  intros H; injection H as <-; cbn; split; [reflexivity|].
  exists pushed; split; [reflexivity|]; eapply every_scan_kept; eassumption.
Qed.

(** After [n] rounds of the paginator that let it continue, the offset
    has grown by [1000 * n], the next request asks for 100 transactions at
    that offset, and the accumulator has only grown at its end, by
    transactions none of which is strictly older than the boundary. *)
Theorem reach_offsets (rt : runtime)
    (net : http_method -> string -> list (string * jsval) -> transport_result)
    (self : Bitstamp) (bd : option Z) :
  forall n st st', reach rt net self bd n st = Some st' ->
  offset st' = offset st + 1000 * Z.of_nat n
  /\ page_params st'
     = [("limit", JNum "100"); ("offset", JNum (Z_text (offset st + 1000 * Z.of_nat n)));
        ("sort", JStr "desc")]
  /\ exists pre, transactionsAll st' = (transactionsAll st ++ pre)%list
     /\ Forall (fun tx => not_older rt bd tx = true) pre.
Proof.
  assert (Hmain : forall n st st', reach rt net self bd n st = Some st' ->
    offset st' = offset st + 1000 * Z.of_nat n
    /\ exists pre, transactionsAll st' = (transactionsAll st ++ pre)%list
       /\ Forall (fun tx => not_older rt bd tx = true) pre).
  { induction n as [|n IH]; intros st st' H; cbn in H.
    - injection H as <-; split; [lia|]; exists []; rewrite app_nil_r; auto.
    - destruct (post_result net self "user_transactions" (page_params st)) as [r|];
        [|discriminate].
      destruct (post_step rt bd st r) as [[e|st1]|] eqn:Hs; try discriminate.
      destruct (continueIteration st1); [|discriminate].
      apply post_step_inr in Hs as [Ho1 [p1 [Ht1 Hf1]]].
      destruct (IH st1 st' H) as [Ho [p2 [Ht2 Hf2]]].
      split; [rewrite Ho, Ho1; unfold responseLength; lia|].
      exists (p1 ++ p2)%list; split.
      + rewrite Ht2, Ht1, app_assoc; reflexivity.
      + apply Forall_app; auto. }
  intros n st st' H; destruct (Hmain n st st' H) as [Ho Hp].
  split; [exact Ho|]; split; [|exact Hp].
  unfold page_params; rewrite Ho; reflexivity.
Qed.

Lemma reach_offsets_witness :
  let st := {| transactionsAll := firstn 100 history250; offset := 1000;
               continueIteration := true |} in
  reach demo_rt (history_exchange history250) demo_client (Some 0) 1 pstate_init = Some st
  /\ page_params st
     = [("limit", JNum "100"); ("offset", JNum (Z_text (0 + 1000 * Z.of_nat 1)));
        ("sort", JStr "desc")].
Proof.
  intros st.
  assert (H : reach demo_rt (history_exchange history250) demo_client (Some 0) 1 pstate_init
              = Some st) by (vm_compute; reflexivity).
  split; [exact H|].
  exact (proj1 (proj2 (reach_offsets demo_rt (history_exchange history250) demo_client (Some 0)
                         1 pstate_init st H))).
Defined.


Lemma doWhilst_final {A} (rt : runtime)
    (net : http_method -> string -> list (string * jsval) -> transport_result)
    (self : Bitstamp) (bd : option Z) (done : err_value + list jsval -> io A) :
  forall n st0 st r st' fuel,
  reach rt net self bd n st0 = Some st ->
  post_result net self "user_transactions" (page_params st) = Some r ->
  post_step rt bd st r = Some (inr st') ->
  continueIteration st' = false ->
  (n <= fuel)%nat ->
  run net (doWhilst rt fuel self bd st0 done) = run net (done (inr (transactionsAll st'))).
Proof.
  induction n as [|n IH]; intros st0 st r st' fuel Hreach Hr Hs Hc Hle.
  - cbn in Hreach; injection Hreach as <-.
    destruct fuel; cbn [doWhilst]; rewrite run_post, Hr, Hs, Hc; reflexivity.
  - cbn in Hreach.
    destruct (post_result net self "user_transactions" (page_params st0)) as [r0|] eqn:Hr0;
      [|discriminate].
    destruct (post_step rt bd st0 r0) as [[e'|st1]|] eqn:Hs0; try discriminate.
    destruct (continueIteration st1) eqn:Hc1; [|discriminate].
    destruct fuel as [|fuel]; [lia|].
    cbn [doWhilst]; rewrite run_post, Hr0, Hs0, Hc1.
    apply (IH st1 st r st' fuel Hreach Hr Hs Hc); lia.
Qed.

(** When the page requested after [n] rounds holds fewer than 100
    transactions, none strictly older than the boundary, the paginator
    stops and returns the transactions of all the pages, in order. *)
Theorem iterateRequestTxs_short_page {A} (rt : runtime)
    (net : http_method -> string -> list (string * jsval) -> transport_result)
    (self : Bitstamp) (bd : option Z) (k : err_value + list jsval -> io A)
    (n : nat) (st : pstate) (page : list jsval) (fuel : nat) :
  reach rt net self bd n pstate_init = Some st ->
  post_result net self "user_transactions" (page_params st) = Some (inr (JArr page)) ->
  Z.of_nat (length page) < 100 ->
  Forall (fun tx => not_older rt bd tx = true) page ->
  (n <= fuel)%nat ->
  run net (iterateRequestTxs rt fuel self bd k)
  = run net (k (inr (transactionsAll st ++ page)%list)).
Proof.
  intros Hreach Hr Hlen Hall Hle; unfold iterateRequestTxs.
  assert (Hs : post_step rt bd st (inr (JArr page))
               = Some (inr {| transactionsAll := (transactionsAll st ++ page)%list;
                              offset := offset st + responseLength;
                              continueIteration := false |})).
  { unfold post_step; rewrite every_scan_all_kept by exact Hall.
    unfold BITSTAMP_REQUEST_LIMIT; apply Z.ltb_lt in Hlen; rewrite Hlen.
    rewrite !andb_false_r; reflexivity. }
  rewrite (doWhilst_final rt net self bd _ n pstate_init st _ _ fuel Hreach Hr Hs eq_refl Hle).
  reflexivity.
Qed.

Lemma iterateRequestTxs_short_page_witness :
  run (history_exchange history250)
      (iterateRequestTxs demo_rt 3%nat demo_client (Some 0) raw_result)
  = Ret (firstn 100 history250 ++ [])%list.
Proof.
  set (st := {| transactionsAll := firstn 100 history250; offset := 1000;
                continueIteration := true |}).
  assert (H1 : reach demo_rt (history_exchange history250) demo_client (Some 0) 1 pstate_init
               = Some st) by (vm_compute; reflexivity).
  assert (H2 : post_result (history_exchange history250) demo_client "user_transactions"
                 (page_params st) = Some (inr (JArr []))) by (vm_compute; reflexivity).
  exact (iterateRequestTxs_short_page demo_rt (history_exchange history250) demo_client (Some 0)
           raw_result 1%nat st [] 3%nat H1 H2 ltac:(cbn; lia) (Forall_nil _) ltac:(lia)).
Defined.


Lemma doWhilst_outcome {A} (rt : runtime)
    (net : http_method -> string -> list (string * jsval) -> transport_result)
    (self : Bitstamp) (bd : option Z) (done : err_value + list jsval -> io A) :
  forall fuel st,
  let r := run net (doWhilst rt fuel self bd st done) in
  r = Crash \/ r = Diverge \/ (exists e, r = run net (done (inl e)))
  \/ (exists pre, Forall (fun tx => not_older rt bd tx = true) pre
                  /\ r = run net (done (inr (transactionsAll st ++ pre)%list))).
Proof.
  induction fuel as [|f IH]; intros st; cbn zeta; cbn [doWhilst]; rewrite run_post;
    (destruct (post_result net self "user_transactions" (page_params st)) as [r|];
     [|left; reflexivity]);
    (destruct (post_step rt bd st r) as [[e|st']|] eqn:Hs;
     [right; right; left; eauto| |left; reflexivity]);
    pose proof (post_step_inr rt bd st st' r Hs) as [_ [p1 [Ht1 Hf1]]];
    (destruct (continueIteration st') eqn:Hc;
     [|right; right; right; exists p1; rewrite <- Ht1; auto]).
  all: try (right; left; reflexivity).
  pose proof (IH st') as HI; cbn zeta in HI.
  destruct HI as [H|[H|[[e H]|[p2 [Hf2 H]]]]]; try (rewrite H; eauto; fail).
  right; right; right; exists (p1 ++ p2)%list; split; [apply Forall_app; auto|].
  rewrite H, Ht1, app_assoc; reflexivity.
Qed.

(** The paginator either crashes with an uncaught exception, runs past
    the iteration bound, hands its callback the listing error wrapping some
    error, or hands it transactions none of which is strictly older than
    the boundary. *)
Theorem iterateRequestTxs_outcome {A} (rt : runtime)
    (net : http_method -> string -> list (string * jsval) -> transport_result)
    (self : Bitstamp) (bd : option Z) (fuel : nat) (k : err_value + list jsval -> io A) :
  let r := run net (iterateRequestTxs rt fuel self bd k) in
  r = Crash \/ r = Diverge \/ (exists e, r = run net (k (inl (listing_error e))))
  \/ (exists l, Forall (fun tx => not_older rt bd tx = true) l /\ r = run net (k (inr l))).
Proof.
  cbn zeta; unfold iterateRequestTxs.
  destruct (doWhilst_outcome rt net self bd
              (fun r => match r with
                        | inl err => k (inl (listing_error err))
                        | inr deposits => k (inr deposits)
                        end) fuel pstate_init) as [H|[H|[[e H]|[pre [Hf H]]]]];
    rewrite H; eauto 6.
Qed.

Lemma filter_opt_spec {A} (f : A -> option bool) :
  forall l l', filter_opt f l = Some l' -> Forall (fun x => In x l /\ f x = Some true) l'.
Proof.
  induction l as [|x l IH]; intros l' H; cbn in H.
  - injection H as <-; constructor.
  - destruct (f x) as [b|] eqn:Hf; [|discriminate]; cbn in H.
    destruct (filter_opt f l) as [ys|] eqn:Hl; [|discriminate]; cbn in H.
    injection H as <-.
    assert (Hys : Forall (fun y => In y (x :: l) /\ f y = Some true) ys).
    { refine (Forall_impl _ _ (IH ys eq_refl)); intros y [Hin Hy]; split; [right|]; auto. }
    destruct b; auto; constructor; [split; [left|]|]; auto.
Qed.

Lemma Forall2_transfer {A B} (R : A -> B -> Prop) (P : A -> Prop) (Q : B -> Prop)
    (l1 : list A) (l2 : list B) :
  Forall2 R l1 l2 -> Forall P l1 -> (forall x y, R x y -> P x -> Q y) -> Forall Q l2.
Proof.
  intros H2 HP HRQ; induction H2 as [|x y l1 l2 Hxy _ IH]; [constructor|].
  inversion HP; subst; constructor; eauto.
Qed.

Lemma strict_type_cases (ty : jsval) :
  (strict_eq_num ty TYPE_DEPOSIT || strict_eq_num ty TYPE_WITHDRAWAL) = true ->
  ty = TYPE_DEPOSIT \/ ty = TYPE_WITHDRAWAL.
Proof.
  destruct ty as [| | |t| | |]; cbn; try discriminate.
  intros H; apply orb_prop in H as [H|H]; apply String.eqb_eq in H; subst; auto.
Qed.

Lemma strict_market_trade (ty : jsval) :
  strict_eq_num ty TYPE_MARKET_TRADE = true -> ty = TYPE_MARKET_TRADE.
Proof.
  destruct ty as [| | |t| | |]; cbn; try discriminate.
  intros H; apply String.eqb_eq in H; subst; reflexivity.
Qed.

(** Every transaction returned by [listTransactions] has state
    'completed', is not strictly older than the boundary, and comes from a
    raw transaction whose [type] is the number 0, labelled 'deposit', or
    the number 1, labelled 'withdrawal'. *)
Theorem listTransactions_results (rt : runtime)
    (net : http_method -> string -> list (string * jsval) -> transport_result)
    (fuel : nat) (self : Bitstamp) (latest : jsval) (txs : list Transaction.t) :
  run net (listTransactions rt fuel self latest) = Ret txs ->
  exists bd, transactionsBoundary rt latest = Some bd
  /\ Forall (fun tx =>
       Transaction.state tx = "completed"
       /\ not_older rt bd (Transaction.raw tx) = true
       /\ ((prop "type" (Transaction.raw tx) = Some TYPE_DEPOSIT
            /\ Transaction.type tx = "deposit")
           \/ (prop "type" (Transaction.raw tx) = Some TYPE_WITHDRAWAL
               /\ Transaction.type tx = "withdrawal"))) txs.
Proof.
  intros Hr; unfold listTransactions in Hr.
  destruct (transactionsBoundary rt latest) as [bd|]; [|discriminate].
  exists bd; split; [reflexivity|].
  unfold iterateRequestTxs in Hr.
  match type of Hr with
  | run net (doWhilst rt fuel self bd pstate_init ?d) = _ =>
      destruct (doWhilst_outcome rt net self bd d fuel pstate_init)
        as [H|[H|[[e H]|[pre [Hf H]]]]]; rewrite H in Hr; try discriminate
  end.
  cbn [run transactionsAll pstate_init app] in Hr.
  destruct (filter_opt _ pre) as [kept|] eqn:Hk; cbn [obind] in Hr; [|discriminate].
  destruct (map_opt (constructTransactionObject rt) kept) as [out|] eqn:Hm; [|discriminate].
  injection Hr as <-.
  apply filter_opt_spec in Hk; apply map_opt_Forall2 in Hm.
  refine (Forall2_transfer _ _ _ kept out Hm Hk _).
  intros x y Hxy [Hin Hty].
  destruct (prop "type" x) as [ty|] eqn:Hpt; [|discriminate]; cbn in Hty.
  injection Hty as Hty.
  pose proof (proj1 (Forall_forall _ pre) Hf x Hin) as Hkept; cbn beta in Hkept.
  unfold constructTransactionObject, obind in Hxy; rewrite Hpt in Hxy.
  destruct (strict_type_cases ty Hty) as [->| ->];
    unfold TYPE_DEPOSIT, TYPE_WITHDRAWAL in Hxy |- *; cbn in Hxy.
  all: split_matches_in Hxy; injection Hxy as <-; cbn.
  all: split; [reflexivity|]; split; [exact Hkept|]; auto.
Qed.

Lemma listTransactions_results_witness :
  let txs := [{| Transaction.externalId := "3"; Transaction.timestamp := "3";
                 Transaction.state := "completed"; Transaction.amount := 1;
                 Transaction.currency := "BTC"; Transaction.type := "deposit";
                 Transaction.raw := demo_tx 3 |};
              {| Transaction.externalId := "1"; Transaction.timestamp := "1";
                 Transaction.state := "completed"; Transaction.amount := 1;
                 Transaction.currency := "BTC"; Transaction.type := "withdrawal";
                 Transaction.raw := demo_withdrawal 1 |}] in
  run (history_exchange [demo_tx 3; demo_market_trade 2; demo_withdrawal 1])
      (listTransactions demo_rt 3%nat demo_client JUndefined) = Ret txs
  /\ exists bd, transactionsBoundary demo_rt JUndefined = Some bd
     /\ Forall (fun tx => Transaction.state tx = "completed"
                          /\ not_older demo_rt bd (Transaction.raw tx) = true
                          /\ ((prop "type" (Transaction.raw tx) = Some TYPE_DEPOSIT
                               /\ Transaction.type tx = "deposit")
                              \/ (prop "type" (Transaction.raw tx) = Some TYPE_WITHDRAWAL
                                  /\ Transaction.type tx = "withdrawal"))) txs.
Proof.
  intros txs.
  assert (H : run (history_exchange [demo_tx 3; demo_market_trade 2; demo_withdrawal 1])
                (listTransactions demo_rt 3%nat demo_client JUndefined) = Ret txs)
    by (vm_compute; reflexivity).
  split; [exact H|].
  exact (listTransactions_results demo_rt _ 3%nat demo_client JUndefined txs H).
Defined.


(** Every trade returned by [listTrades] is a closed limit trade of BTC
    against USD with fees in USD, is not strictly older than the boundary,
    and comes from a raw transaction whose [type] is the number 2. *)
Theorem listTrades_results (rt : runtime)
    (net : http_method -> string -> list (string * jsval) -> transport_result)
    (fuel : nat) (self : Bitstamp) (latest : jsval) (trades : list MarketTrade.t) :
  run net (listTrades rt fuel self latest) = Ret trades ->
  exists bd, tradesBoundary rt latest = Some bd
  /\ Forall (fun tr =>
       MarketTrade.type tr = "limit" /\ MarketTrade.state tr = "closed"
       /\ MarketTrade.baseCurrency tr = "BTC" /\ MarketTrade.quoteCurrency tr = "USD"
       /\ MarketTrade.feeCurrency tr = "USD"
       /\ not_older rt bd (MarketTrade.raw tr) = true
       /\ prop "type" (MarketTrade.raw tr) = Some TYPE_MARKET_TRADE) trades.
Proof.
  intros Hr; unfold listTrades in Hr.
  destruct (tradesBoundary rt latest) as [bd|]; [|discriminate].
  exists bd; split; [reflexivity|].
  unfold iterateRequestTxs in Hr.
  match type of Hr with
  | run net (doWhilst rt fuel self bd pstate_init ?d) = _ =>
      destruct (doWhilst_outcome rt net self bd d fuel pstate_init)
        as [H|[H|[[e H]|[pre [Hf H]]]]]; rewrite H in Hr; try discriminate
  end.
  cbn [run transactionsAll pstate_init app] in Hr.
  destruct (filter_opt _ pre) as [kept|] eqn:Hk; cbn [obind] in Hr; [|discriminate].
  destruct (map_opt (marketTradeObject rt) kept) as [out|] eqn:Hm; [|discriminate].
  injection Hr as <-.
  apply filter_opt_spec in Hk; apply map_opt_Forall2 in Hm.
  refine (Forall2_transfer _ _ _ kept out Hm Hk _).
  intros x y Hxy [Hin Hty].
  destruct (prop "type" x) as [ty|] eqn:Hpt; [|discriminate]; cbn in Hty.
  injection Hty as Hty.
  unfold marketTradeObject, obind in Hxy.
  split_matches_in Hxy; injection Hxy as <-; cbn.
  repeat split; [apply (proj1 (Forall_forall _ pre) Hf x Hin)|].
  rewrite Hpt, (strict_market_trade ty Hty); reflexivity.
Qed.

Lemma listTrades_results_witness :
  let trades := [{| MarketTrade.externalId := "42"; MarketTrade.type := "limit";
                    MarketTrade.state := "closed"; MarketTrade.baseCurrency := "BTC";
                    MarketTrade.baseAmount := 5; MarketTrade.quoteCurrency := "USD";
                    MarketTrade.quoteAmount := 150; MarketTrade.feeCurrency := "USD";
                    MarketTrade.feeAmount := 1; MarketTrade.tradeTime := Some 2;
                    MarketTrade.raw := demo_market_trade 2 |}] in
  run (history_exchange [demo_tx 3; demo_market_trade 2; demo_withdrawal 1])
      (listTrades demo_rt 3%nat demo_client JUndefined) = Ret trades
  /\ exists bd, tradesBoundary demo_rt JUndefined = Some bd
     /\ Forall (fun tr =>
          MarketTrade.type tr = "limit" /\ MarketTrade.state tr = "closed"
          /\ MarketTrade.baseCurrency tr = "BTC" /\ MarketTrade.quoteCurrency tr = "USD"
          /\ MarketTrade.feeCurrency tr = "USD"
          /\ not_older demo_rt bd (MarketTrade.raw tr) = true
          /\ prop "type" (MarketTrade.raw tr) = Some TYPE_MARKET_TRADE) trades.
Proof.
  intros trades.
  assert (H : run (history_exchange [demo_tx 3; demo_market_trade 2; demo_withdrawal 1])
                (listTrades demo_rt 3%nat demo_client JUndefined) = Ret trades)
    by (vm_compute; reflexivity).
  split; [exact H|].
  exact (listTrades_results demo_rt _ 3%nat demo_client JUndefined trades H).
Defined.


(** [listTrades] throws a TypeError before any request when
    [latestTrade.raw.transactions] is an empty array, and both listings
    throw one when a truthy latest object has no [raw]. *)
Theorem listing_boundary_type_errors (rt : runtime) (fuel : nat) (self : Bitstamp)
    (latest : jsval) :
  (forall raw, truthy latest = true -> prop "raw" latest = Some raw ->
     prop "transactions" raw = Some (JArr []) -> listTrades rt fuel self latest = Crash)
  /\ (truthy latest = true -> prop "raw" latest = Some JUndefined ->
      listTransactions rt fuel self latest = Crash /\ listTrades rt fuel self latest = Crash).
Proof.
  split.
  - intros raw Ht Hr Htr; unfold listTrades, tradesBoundary; rewrite Ht, Hr; cbn [obind].
    rewrite Htr; reflexivity.
  - intros Ht Hr; unfold listTransactions, listTrades, transactionsBoundary, tradesBoundary;
      rewrite Ht, Hr; split; reflexivity.
Qed.

Lemma listing_boundary_type_errors_witness :
  listTrades demo_rt 3%nat demo_client (JObj [("raw", JObj [("transactions", JArr [])])]) = Crash
  /\ listTransactions demo_rt 3%nat demo_client (JObj [("id", JNum "7")]) = Crash.
Proof.
  split.
  - exact (proj1 (listing_boundary_type_errors demo_rt 3%nat demo_client
                    (JObj [("raw", JObj [("transactions", JArr [])])]))
             (JObj [("transactions", JArr [])]) eq_refl eq_refl eq_refl).
  - exact (proj1 (proj2 (listing_boundary_type_errors demo_rt 3%nat demo_client
                           (JObj [("id", JNum "7")])) eq_refl eq_refl)).
Defined.


(** The client built by [new Bitstamp(settings)] sends its GET and POST
    requests to [host + '/api/' + action + '/'], with the default host
    https://www.bitstamp.net when [settings.host] is falsy, and with the
    timeout [settings.timeout], or 5000 when it is falsy (0 included). *)
Theorem constructor_defaults (settings : jsval) (c : client) (action : string) :
  new_Bitstamp settings = Some c ->
  (forall h, prop "host" settings = Some h ->
     url (get_options c action) = url (post_options c action)
     /\ url (get_options c action)
        = (if truthy h then js_to_string h else "https://www.bitstamp.net")
          ++ "/api/" ++ action ++ "/")
  /\ (forall t, prop "timeout" settings = Some t ->
      opt_timeout (get_options c action) = opt_timeout (post_options c action)
      /\ opt_timeout (get_options c action) = if truthy t then t else JNum "5000").
Proof.
  unfold new_Bitstamp, obind.
  destruct (prop "key" settings); [|discriminate].
  destruct (prop "secret" settings); [|discriminate].
  destruct (prop "clientId" settings); [|discriminate].
  destruct (prop "host" settings) as [h0|]; [|discriminate].
  destruct (prop "timeout" settings) as [t0|]; [|discriminate].
  intros H; injection H as <-; split.
  - intros h Hh; injection Hh as <-; split; [reflexivity|].
    unfold get_options, request_url, js_or; cbn [url host]; destruct (truthy h0); reflexivity.
  - intros t Ht; injection Ht as <-; split; [reflexivity|].
    unfold get_options, js_or; cbn [opt_timeout timeout]; destruct (truthy t0); reflexivity.
Qed.

Lemma constructor_defaults_witness :
  let settings := JObj [("key", JStr "k"); ("secret", JStr "s"); ("clientId", JStr "c");
                        ("timeout", JNum "0")] in
  exists c, new_Bitstamp settings = Some c
  /\ url (get_options c "balance") = "https://www.bitstamp.net/api/balance/"
  /\ opt_timeout (post_options c "balance") = JNum "5000".
Proof.
  intros settings.
  destruct (new_Bitstamp settings) as [c|] eqn:Hc; [|discriminate Hc].
  exists c; split; [reflexivity|].
  destruct (constructor_defaults settings c "balance" Hc) as [Hh Ht].
  destruct (Hh JUndefined eq_refl) as [_ Hu].
  destruct (Ht (JNum "0") eq_refl) as [Hpt Hto].
  split; [exact Hu|]; rewrite <- Hpt; exact Hto.
Defined.

